(** * Psychrometric calculator: the state-resolution engine of [app.js]

    A shallow embedding of the thermodynamic functions and of [solveState]
    with its eight pair solvers, followed by the properties of the engine.
    The chart ([drawPsychrometricChart]) and the listeners of the page that
    feed [solveState] are embedded after the engine, as the calls made on
    the canvas and as functions on the fields of the form.

    Numbers.  A JavaScript Number is an IEEE 754 binary64 value, which is
    what Rocq's primitive [float] is: [+ - * /] and the comparisons of the
    source are the primitive operations, [Infinity] and [NaN] included.
    [Math.exp] and [Math.log] are implementation-approximated in ECMAScript,
    so the engine takes them as parameters; [exp_ref] and [log_ref] are
    reference approximations used to run the engine on concrete inputs.

    The enthalpy formula and the bisection loop are written once over a small
    arithmetic interface, so that the same definitions can also be read over
    the real numbers (exact arithmetic) where a property is about the
    mathematical function rather than about rounding. *)

From Stdlib Require Import Floats ZArith Uint63 Reals Lra Lia String Bool List.
Import ListNotations.

Set Warnings "-inexact-float".

(** ** Arithmetic interface *)

Declare Scope num_scope.
Delimit Scope num_scope with num.

Class Arith (N : Type) : Type := {
  num_add : N -> N -> N;
  num_sub : N -> N -> N;
  num_mul : N -> N -> N;
  num_div : N -> N -> N;
  (** the JavaScript test [x < y] *)
  num_lt : N -> N -> bool;
  (** the decimal literal [m * 10^-e] *)
  dec : Z -> nat -> N
}.

Infix "+" := num_add : num_scope.
Infix "-" := num_sub : num_scope.
Infix "*" := num_mul : num_scope.
Infix "/" := num_div : num_scope.
Infix "<?" := num_lt : num_scope.

(** *** IEEE binary64 instance (the JavaScript semantics) *)

Definition float_of_Z (z : Z) : float :=
  if (z <? 0)%Z then PrimFloat.opp (of_uint63 (Uint63.of_Z (- z)))
  else of_uint63 (Uint63.of_Z z).

(** A decimal literal is parsed to the nearest double; dividing two exactly
    representable integers gives the same correctly rounded value. *)
Definition float_dec (m : Z) (e : nat) : float :=
  PrimFloat.div (float_of_Z m) (float_of_Z (10 ^ Z.of_nat e)).

#[export] Instance float_arith : Arith float := {|
  num_add := PrimFloat.add;
  num_sub := PrimFloat.sub;
  num_mul := PrimFloat.mul;
  num_div := PrimFloat.div;
  num_lt := PrimFloat.ltb;
  dec := float_dec
|}.

(** *** Exact instance over the reals *)

Definition Rltb (x y : R) : bool := if Rlt_dec x y then true else false.

Definition R_dec (m : Z) (e : nat) : R := (IZR m / IZR (10 ^ Z.of_nat e))%R.

#[export] Instance real_arith : Arith R := {|
  num_add := Rplus;
  num_sub := Rminus;
  num_mul := Rmult;
  num_div := Rdiv;
  num_lt := Rltb;
  dec := R_dec
|}.

(** ** Definitions shared by both readings *)

Record Bracket (N : Type) : Type := mkBracket {
  lo : N;
  hi : N;
  iterations : nat
}.
Arguments mkBracket {N} _ _ _.
Arguments lo {N} _.
Arguments hi {N} _.
Arguments iterations {N} _.

Section Generic.
Context {N : Type} `{Arith N}.
Local Open Scope num_scope.

(** [CONSTANTS] *)
Definition R_DA : N := dec 287058 3.   (* 287.058 *)
Definition C_DA : N := dec 1006 3.     (* 1.006 *)
Definition H_FG_0 : N := dec 2501 0.   (* 2501 *)
Definition H_FG_T : N := dec 186 2.    (* 1.86 *)
Definition K_W : N := dec 622 3.       (* 0.622 *)
Definition P_STD : N := dec 101325 0.  (* 101325 *)
Definition R_V : N := dec 46152 2.     (* 461.52 *)

(** [enthalpy(T, W)] *)
Definition enthalpy (T W : N) : N :=
  let h_fg := H_FG_0 + H_FG_T * T in
  C_DA * T + W * h_fg.

(** The bisection loop that [wetBulbTemperature], [solveFromTdbH],
    [solveFromTdbTwb] and [solveFromWH] each write out:
<<
    while (high - low > tolerance && iterations < maxIterations) {
        const mid = (low + high) / 2;
        if (f(mid) < target) { low = mid; } else { high = mid; }
        iterations++;
    }
>>
    [below mid] is the test [f(mid) < target]; what follows the loop is
    [(low + high) / 2], the [mid] of the final bracket. *)
Definition mid (b : Bracket N) : N := (lo b + hi b) / dec 2 0.

Definition wide (tolerance : N) (b : Bracket N) : bool :=
  tolerance <? hi b - lo b.

Definition halve (below : N -> bool) (b : Bracket N) : Bracket N :=
  if below (mid b)
  then mkBracket (mid b) (hi b) (S (iterations b))
  else mkBracket (lo b) (mid b) (S (iterations b)).

(** [remaining] is [maxIterations - iterations]. *)
Fixpoint bisect_loop (remaining : nat) (tolerance : N) (below : N -> bool)
         (b : Bracket N) : Bracket N :=
  match remaining with
  | O => b
  | S k =>
      if wide tolerance b
      then bisect_loop k tolerance below (halve below b)
      else b
  end.

Definition bisect (maxIterations : nat) (tolerance : N) (below : N -> bool)
           (low high : N) : Bracket N :=
  bisect_loop maxIterations tolerance below (mkBracket low high 0).

(** The loop of [solveFromTdbH]: search W in [0, W_max]. *)
Definition bracketFromTdbH (Tdb h_target W_max : N) : Bracket N :=
  let tolerance := dec 1 6 in
  let maxIterations := 100%nat in
  bisect maxIterations tolerance
         (fun W_mid => let h_mid := enthalpy Tdb W_mid in h_mid <? h_target)
         (dec 0 0) W_max.

(** The loop of [solveFromWH]: search Tdb in [-50, 100]. *)
Definition bracketFromWH (W h_target : N) : Bracket N :=
  let tolerance := dec 1 2 in
  let maxIterations := 100%nat in
  bisect maxIterations tolerance
         (fun T_mid => let h_mid := enthalpy T_mid W in h_mid <? h_target)
         (dec (-50) 0) (dec 100 0).
End Generic.

(** ** Reference approximations of [Math.exp] and [Math.log] *)

Local Open Scope string_scope.
Local Open Scope float_scope.

(** [1 + y/k * (1 + y/(k+1) * (...))], the Taylor series in Horner form. *)
Fixpoint exp_series (n : nat) (k y : float) : float :=
  match n with
  | O => 1
  | S n' => 1 + (y / k) * exp_series n' (k + 1) y
  end.

(** For [0 <= x], [exp x = (exp (x / 1024)) ^ 1024]; the squarings are done
    on [p = exp y - 1], with [(1 + p)^2 - 1 = p * (2 + p)]. *)
Definition exp_pos (x : float) : float :=
  let y := x / 1024 in
  1 + Nat.iter 10 (fun p => p * (2 + p)) (y * exp_series 18 2 y).

Definition exp_ref (x : float) : float :=
  if is_nan x then nan
  else if 710 <? x then infinity
  else if x <? -746 then 0
  else if x <? 0 then 1 / exp_pos (- x)
  else exp_pos x.

(** [1/k + z2 * (1/(k+2) + z2 * (...))], the series of [atanh z / z]. *)
Fixpoint atanh_series (n : nat) (k z2 : float) : float :=
  match n with
  | O => 0
  | S n' => 1 / k + z2 * atanh_series n' (k + 2) z2
  end.

Definition ln2 : float := 0.6931471805599453.

Definition log_ref (x : float) : float :=
  if is_nan x || (x <? 0) then nan
  else if x =? 0 then neg_infinity
  else if x =? infinity then infinity
  else
    let (m0, e0) := FloatOps.Z.frexp x in
    let (m, e) := if m0 <? 0.7071067811865476
                  then (2 * m0, (e0 - 1)%Z) else (m0, e0) in
    let z := (m - 1) / (m + 1) in
    float_of_Z e * ln2 + 2 * z * atanh_series 24 1 (z * z).

(** ** The engine over JavaScript numbers *)

(** [Math.max] and [Math.min]: NaN if an argument is NaN, and [+0] above
    [-0]. *)
Definition Math_max (x y : float) : float :=
  if is_nan x || is_nan y then nan
  else if x <? y then y
  else if y <? x then x
  else if x =? 0 then x + y
  else x.

Definition Math_min (x y : float) : float := - Math_max (- x) (- y).

(** The message of each [throw new Error(...)] of the engine. *)
Inductive Error : Type :=
| MissingInput       (* "Sélectionnez deux variables et entrez les valeurs." *)
| SameVariables      (* "Les deux variables indépendantes doivent être différentes." *)
| UnsupportedPair (var1 var2 : string)
                     (* `Paire non implémentée: ${var1} + ${var2}` *)
| Unsolvable         (* "Impossible de résoudre cet état (état physiquement impossible)." *)
| RHOutOfRange       (* "L'humidité relative doit être entre 0 et 100%." *)
| ImpossibleState    (* "État thermodynamiquement impossible." *)
| NegativeW          (* "Le ratio d'humidité ne peut pas être négatif." *)
| Supersaturated     (* "État sursaturé (non physique)." *)
| TwbAboveTdb        (* "La température humide ne peut pas dépasser la température sèche." *)
| TdpAboveTdb        (* "La température de rosée ne peut pas dépasser la température sèche." *)
| SupersaturatedPv.  (* "État sursaturé (pression de vapeur trop élevée)." *)

Inductive result (A : Type) : Type :=
| Ok (a : A)
| Throw (e : Error).
Arguments Ok {A} _.
Arguments Throw {A} _.

Definition bind {A B : Type} (r : result A) (k : A -> result B) : result B :=
  match r with
  | Ok a => k a
  | Throw e => Throw e
  end.

Notation "x <- r ;; k" := (bind r (fun x => k))
  (at level 61, r at next level, right associativity).

(** The object a pair solver returns:
    [{ Tdb, W, RH, h, Twb, T_dew, Pv, rho, P_total }]. *)
Module Pair.
Record state : Type := mk {
  Tdb : float;
  W : float;
  RH : float;
  h : float;
  Twb : float;
  T_dew : float;
  Pv : float;
  rho : float;
  P_total : float
}.
End Pair.

(** The object [solveState] returns: the solver's object with [m_da],
    [V_dot] and [P_total] set. *)
Module State.
Record t : Type := mk {
  Tdb : float;
  W : float;
  RH : float;
  h : float;
  Twb : float;
  T_dew : float;
  Pv : float;
  rho : float;
  P_total : float;
  m_da : float;
  V_dot : float
}.
End State.

(** The argument of [solveState]; [None] is JavaScript's [null], and the
    empty string is the falsy "no selection". *)
Record Inputs : Type := mkInputs {
  var1 : string;
  val1 : option float;
  var2 : string;
  val2 : option float;
  P_total : float;
  m_da_ref : float
}.

(** [[var1, var2].sort()] and [vars.join("+")].  The default sort orders
    strings by their code units, which for the ASCII identifiers of the
    application is the byte order of [String.ltb]. *)
Definition sort2 (a b : string) : list string :=
  if String.ltb b a then [b; a] else [a; b].

Definition pair_key (var1 var2 : string) : string :=
  String.concat "+" (sort2 var1 var2).

Section Engine.
Variables Math_exp Math_log : float -> float.

Definition saturationVaporPressure (T : float) : float :=
  let a := 17.27 in
  let b := 237.7 in
  let p_ref := 611.2 in
  let exponent := (a * T) / (b + T) in
  p_ref * Math_exp exponent.

Definition temperatureFromSaturationPressure (p_sat : float) : float :=
  let a := 17.27 in
  let b := 237.7 in
  let p_ref := 611.2 in
  let ratio := Math_log (p_sat / p_ref) in
  (b * ratio) / (a - ratio).

Definition humidityRatioFromVaporPressure (Pv P_total : float) : float :=
  if P_total <=? Pv then infinity
  else K_W * Pv / (P_total - Pv).

Definition vaporPressureFromHumidityRatio (W P_total : float) : float :=
  P_total * W / (K_W + W).

Definition relativeHumidity (Pv T : float) : float :=
  let p_sat := saturationVaporPressure T in
  100 * Pv / p_sat.

Definition saturationHumidityRatio (T P_total : float) : float :=
  let p_sat := saturationVaporPressure T in
  humidityRatioFromVaporPressure p_sat P_total.

(** The final bracket of the loop of [wetBulbTemperature]. *)
Definition wetBulbBracket (Tdb W P_total : float) : Bracket float :=
  let h_target := enthalpy Tdb W in
  let p_v := vaporPressureFromHumidityRatio W P_total in
  let T_dew := temperatureFromSaturationPressure p_v in
  let T_low := Math_max (T_dew - 5) (-50) in
  let T_high := Tdb in
  let tolerance := 0.001 in
  let maxIterations := 50%nat in
  bisect maxIterations tolerance
         (fun T_mid =>
            let W_sat_mid := saturationHumidityRatio T_mid P_total in
            let h_mid := enthalpy T_mid W_sat_mid in
            h_mid <? h_target)
         T_low T_high.

Definition wetBulbTemperature (Tdb W P_total : float) : float :=
  mid (wetBulbBracket Tdb W P_total).

Definition density (Tdb W P_total : float) : float :=
  let T_K := Tdb + 273.15 in
  let R_mix := R_DA * (1 + 1.6078 * W) / (1 + W) in
  P_total / (R_mix * T_K).

Definition volumetricFlow (m_da rho : float) : float :=
  (m_da / rho) * 3.6.

(** *** Pair solvers *)

Definition solveFromTdbRH (Tdb RH P_total : float) : result Pair.state :=
  if (RH <? 0) || (100 <? RH) then Throw RHOutOfRange else
  let p_sat := saturationVaporPressure Tdb in
  let Pv := (RH / 100) * p_sat in
  let W := humidityRatioFromVaporPressure Pv P_total in
  if W <? 0 then Throw ImpossibleState else
  let h := enthalpy Tdb W in
  let Twb := wetBulbTemperature Tdb W P_total in
  let T_dew := temperatureFromSaturationPressure Pv in
  let rho := density Tdb W P_total in
  Ok (Pair.mk Tdb W RH h Twb T_dew Pv rho P_total).

Definition solveFromTdbW (Tdb W P_total : float) : result Pair.state :=
  if W <? 0 then Throw NegativeW else
  let Pv := vaporPressureFromHumidityRatio W P_total in
  let p_sat := saturationVaporPressure Tdb in
  let RH := 100 * Pv / p_sat in
  if 100.5 <? RH then Throw Supersaturated else
  let h := enthalpy Tdb W in
  let Twb := wetBulbTemperature Tdb W P_total in
  let T_dew := temperatureFromSaturationPressure Pv in
  let rho := density Tdb W P_total in
  Ok (Pair.mk Tdb W (Math_min RH 100) h Twb T_dew Pv rho P_total).

Definition solveFromTdbH (Tdb h_target P_total : float)
  : result Pair.state :=
  let W_max := saturationHumidityRatio Tdb P_total in
  let W := mid (bracketFromTdbH Tdb h_target W_max) in
  let Pv := vaporPressureFromHumidityRatio W P_total in
  let p_sat := saturationVaporPressure Tdb in
  let RH := 100 * Pv / p_sat in
  let Twb := wetBulbTemperature Tdb W P_total in
  let T_dew := temperatureFromSaturationPressure Pv in
  let rho := density Tdb W P_total in
  Ok (Pair.mk Tdb W RH h_target Twb T_dew Pv rho P_total).

(** The final bracket of the loop of [solveFromTdbTwb]. *)
Definition bracketFromTdbTwb (Tdb Twb P_total : float) : Bracket float :=
  let W_sat_wb := saturationHumidityRatio Twb P_total in
  let h_target := enthalpy Twb W_sat_wb in
  let W_sat := saturationHumidityRatio Tdb P_total in
  let tolerance := 1e-6 in
  let maxIterations := 100%nat in
  bisect maxIterations tolerance
         (fun W_mid => let h_mid := enthalpy Tdb W_mid in h_mid <? h_target)
         0 W_sat.

Definition solveFromTdbTwb (Tdb Twb P_total : float) : result Pair.state :=
  if Tdb <? Twb then Throw TwbAboveTdb else
  let W := mid (bracketFromTdbTwb Tdb Twb P_total) in
  let Pv := vaporPressureFromHumidityRatio W P_total in
  let p_sat := saturationVaporPressure Tdb in
  let RH := 100 * Pv / p_sat in
  let h := enthalpy Tdb W in
  let T_dew := temperatureFromSaturationPressure Pv in
  let rho := density Tdb W P_total in
  Ok (Pair.mk Tdb W RH h Twb T_dew Pv rho P_total).

Definition solveFromTdbTdp (Tdb Tdp P_total : float) : result Pair.state :=
  if Tdb + 0.1 <? Tdp then Throw TdpAboveTdb else
  let Pv := saturationVaporPressure Tdp in
  let W := humidityRatioFromVaporPressure Pv P_total in
  let p_sat := saturationVaporPressure Tdb in
  let RH := 100 * Pv / p_sat in
  let h := enthalpy Tdb W in
  let Twb := wetBulbTemperature Tdb W P_total in
  let rho := density Tdb W P_total in
  Ok (Pair.mk Tdb W RH h Twb Tdp Pv rho P_total).

Definition solveFromWH (W h_target P_total : float) : result Pair.state :=
  let Tdb := mid (bracketFromWH W h_target) in
  let Pv := vaporPressureFromHumidityRatio W P_total in
  let p_sat := saturationVaporPressure Tdb in
  let RH := 100 * Pv / p_sat in
  let Twb := wetBulbTemperature Tdb W P_total in
  let T_dew := temperatureFromSaturationPressure Pv in
  let rho := density Tdb W P_total in
  Ok (Pair.mk Tdb W RH h_target Twb T_dew Pv rho P_total).

Definition solveFromTdbPv (Tdb Pv P_total : float) : result Pair.state :=
  let W := humidityRatioFromVaporPressure Pv P_total in
  let p_sat := saturationVaporPressure Tdb in
  let RH := 100 * Pv / p_sat in
  if 100.5 <? RH then Throw SupersaturatedPv else
  let h := enthalpy Tdb W in
  let Twb := wetBulbTemperature Tdb W P_total in
  let T_dew := temperatureFromSaturationPressure Pv in
  let rho := density Tdb W P_total in
  Ok (Pair.mk Tdb W (Math_min RH 100) h Twb T_dew Pv rho P_total).

Definition solveFromRHW (RH W P_total : float) : result Pair.state :=
  let Pv := vaporPressureFromHumidityRatio W P_total in
  let p_sat_target := 100 * Pv / RH in
  let Tdb := temperatureFromSaturationPressure p_sat_target in
  let h := enthalpy Tdb W in
  let Twb := wetBulbTemperature Tdb W P_total in
  let T_dew := temperatureFromSaturationPressure Pv in
  let rho := density Tdb W P_total in
  Ok (Pair.mk Tdb W RH h Twb T_dew Pv rho P_total).

(** *** [solveState] *)

(** The pair-based resolution: the [if (pair === ...) ... else throw]
    chain.  [val name] is [var1 === name ? val1 : val2]. *)
Definition resolvePair (var1 : string) (val1 : float) (var2 : string)
           (val2 : float) (P_total : float) : result Pair.state :=
  let vars := sort2 var1 var2 in
  let pair := String.concat "+" vars in
  let val name := if (var1 =? name)%string then val1 else val2 in
  if (pair =? "rh+tdb")%string then
    solveFromTdbRH (val "tdb") (val "rh") P_total
  else if (pair =? "tdb+w")%string then
    solveFromTdbW (val "tdb") (val "w") P_total
  else if (pair =? "h+tdb")%string then
    solveFromTdbH (val "tdb") (val "h") P_total
  else if (pair =? "tdb+twb")%string then
    solveFromTdbTwb (val "tdb") (val "twb") P_total
  else if (pair =? "tdp+tdb")%string then
    solveFromTdbTdp (val "tdb") (val "tdp") P_total
  else if (pair =? "h+w")%string then
    solveFromWH (val "w") (val "h") P_total
  else if (pair =? "pv+tdb")%string then
    solveFromTdbPv (val "tdb") (val "pv") P_total
  else if (pair =? "rh+w")%string then
    solveFromRHW (val "rh") (val "w") P_total
  else Throw (UnsupportedPair var1 var2).

(** The flow fields, set after the pair is resolved. *)
Definition withFlows (var1 : string) (val1 : float) (var2 : string)
           (val2 : float) (P_total m_da_ref : float) (state : Pair.state)
  : State.t :=
  let m_da :=
    if (var1 =? "m_da")%string || (var2 =? "m_da")%string
    then (if (var1 =? "m_da")%string then val1 else val2)
    else m_da_ref in
  let V_dot := volumetricFlow m_da (Pair.rho state) in
  let '(V_dot, m_da) :=
    if (var1 =? "v_dot")%string || (var2 =? "v_dot")%string
    then (let V_dot := if (var1 =? "v_dot")%string then val1 else val2 in
          (V_dot, (V_dot / 3.6) * Pair.rho state))
    else (V_dot, m_da) in
  State.mk (Pair.Tdb state) (Pair.W state) (Pair.RH state) (Pair.h state)
           (Pair.Twb state) (Pair.T_dew state) (Pair.Pv state)
           (Pair.rho state) P_total m_da V_dot.

(** The values of this model are numbers or [null].  For these the guard
    [if (!state || state.Tdb === undefined)] that follows the resolution
    does not fire, every solver returning an object whose [Tdb] is a
    number, which the record type states; it is not part of the model.  (A
    value that is [undefined] is outside the model: a solver returns it as
    [Tdb] and the guard throws [Unsolvable].) *)
Definition solveState (inputs : Inputs) : result State.t :=
  let '(mkInputs var1 val1 var2 val2 P_total m_da_ref) := inputs in
  match val1, val2 with
  | Some val1, Some val2 =>
      if (var1 =? "")%string || (var2 =? "")%string then Throw MissingInput
      else if (var1 =? var2)%string then Throw SameVariables
      else
        state <- resolvePair var1 val1 var2 val2 P_total ;;
        Ok (withFlows var1 val1 var2 val2 P_total m_da_ref state)
  | _, _ => Throw MissingInput
  end.
End Engine.

(** ** The chart *)

(** The calls that [drawPsychrometricChart] makes on the 2D context of the
    canvas, a property written being a call of its setter. *)
Inductive Draw : Type :=
| fillStyle (style : string)
| strokeStyle (style : string)
| lineWidth (width : float)
| font (name : string)
| textAlign (align : string)
| textBaseline (baseline : string)
| fillRect (x y w h : float)
| beginPath
| moveTo (x y : float)
| lineTo (x y : float)
| stroke
| arc (x y radius startAngle endAngle : float)
| fill
| fillText (text : string) (x y : float)
| save
| translate (x y : float)
| rotate (angle : float)
| restore.

Definition Math_PI : float := 3.141592653589793.

(** [for (let x = start; x <= stop; x += step)]: the values of [x] the body
    runs with, [None] when the loop has not ended after [fuel] rounds. *)
Fixpoint for_values (fuel : nat) (x stop step : float)
  : option (list float) :=
  match fuel with
  | O => None
  | S k =>
      if x <=? stop
      then option_map (cons x) (for_values k (x + step) stop step)
      else Some []
  end.

Section Chart.
Variable Math_exp : float -> float.
(** [x.toFixed(digits)] and [x.toString()] *)
Variable toFixed : nat -> float -> string.
Variable toString : float -> string.

Definition T_min : float := -10.
Definition T_max : float := 50.
Definition W_min : float := 0.
Definition W_max : float := 0.03.

Definition marginLeft : float := 60.
Definition marginBottom : float := 60.
Definition marginTop : float := 30.
Definition marginRight : float := 30.

Section Canvas.
(** [canvas.width] and [canvas.height] *)
Variables w h : float.

Definition chartWidth : float := w - marginLeft - marginRight.
Definition chartHeight : float := h - marginBottom - marginTop.

Definition toCanvasX (T : float) : float :=
  marginLeft + ((T - T_min) / (T_max - T_min)) * chartWidth.

Definition toCanvasY (W : float) : float :=
  h - marginBottom - ((W - W_min) / (W_max - W_min)) * chartHeight.

(** The body of the temperature-grid loop and of the W-grid loop. *)
Definition temperatureGridLine (T : float) : list Draw :=
  let x := toCanvasX T in
  [beginPath; moveTo x marginTop; lineTo x (h - marginBottom); stroke].

Definition humidityGridLine (W : float) : list Draw :=
  let y := toCanvasY W in
  [beginPath; moveTo marginLeft y; lineTo (w - marginRight) y; stroke].

(** The loop of the saturation curve over the values of [T], with its
    [firstPoint] flag. *)
Fixpoint saturationCurve (firstPoint : bool) (Ts : list float)
  : list Draw :=
  match Ts with
  | [] => []
  | T :: rest =>
      let W_sat := saturationHumidityRatio Math_exp T P_STD in
      if W_max <? W_sat then saturationCurve firstPoint rest
      else
        let x := toCanvasX T in
        let y := toCanvasY W_sat in
        if firstPoint
        then moveTo x y :: saturationCurve false rest
        else lineTo x y :: saturationCurve false rest
  end.

(** The current point, drawn when a state is given. *)
Definition statePoint (state : option State.t) : list Draw :=
  match state with
  | None => []
  | Some state =>
      let x := toCanvasX (State.Tdb state) in
      let y := toCanvasY (State.W state) in
      [ fillStyle "rgb(255, 50, 50)";
        beginPath;
        arc x y 6 0 (2 * Math_PI);
        fill;
        strokeStyle "rgb(200, 0, 0)";
        lineWidth 2;
        stroke;
        fillStyle "rgb(0, 0, 0)";
        font "12px sans-serif";
        fillText ("(" ++ toFixed 1 (State.Tdb state) ++ "°C, "
                  ++ toFixed 4 (State.W state) ++ ")")
                 (x + 12) (y - 10) ]
  end.

Definition temperatureTick (T : float) : Draw :=
  let x := toCanvasX T in
  fillText (toString T) x (h - marginBottom + 20).

Definition humidityTick (W : float) : Draw :=
  let y := toCanvasY W in
  fillText (toFixed 3 W) (marginLeft - 10) y.

(** The drawing on a canvas, from the values of the loops. *)
Definition drawing (gridT gridW curveT : list float)
           (state : option State.t) : list Draw :=
  [ fillStyle "white"; fillRect 0 0 w h;
    strokeStyle "rgba(200, 200, 200, 0.3)"; lineWidth 0.5 ]
  ++ flat_map temperatureGridLine gridT
  ++ flat_map humidityGridLine gridW
  ++ [ strokeStyle "rgb(0, 100, 200)"; lineWidth 2; beginPath ]
  ++ saturationCurve true curveT
  ++ [ stroke ]
  ++ statePoint state
  ++ [ strokeStyle "black"; lineWidth 1.5; beginPath;
       moveTo marginLeft marginTop;
       lineTo marginLeft (h - marginBottom);
       lineTo (w - marginRight) (h - marginBottom);
       stroke;
       fillStyle "black"; font "bold 13px sans-serif"; textAlign "center";
       fillText "Température sèche [°C]" (w / 2) (h - 10);
       save; translate 15 (h / 2); rotate (- Math_PI / 2);
       fillText "Ratio d'humidité [kg_w/kg_da]" 0 0;
       restore;
       font "11px sans-serif"; textAlign "center" ]
  ++ map temperatureTick gridT
  ++ [ textAlign "right"; textBaseline "middle" ]
  ++ map humidityTick gridW.
End Canvas.

(** The values of the three loops. *)
Definition temperatureGrid (fuel : nat) : option (list float) :=
  for_values fuel T_min T_max 5.

Definition humidityGrid (fuel : nat) : option (list float) :=
  for_values fuel 0 W_max 0.005.

Definition curveTemperatures (fuel : nat) : option (list float) :=
  for_values fuel T_min T_max 0.5.

(** [canvas] is [None] when the page has no element ["psychrometricChart"]:
    nothing is drawn. *)
Definition drawPsychrometricChart (fuel : nat)
           (canvas : option (float * float)) (state : option State.t)
  : option (list Draw) :=
  match canvas with
  | None => Some []
  | Some (w, h) =>
      match temperatureGrid fuel, humidityGrid fuel,
            curveTemperatures fuel with
      | Some gridT, Some gridW, Some curveT =>
          Some (drawing w h gridT gridW curveT state)
      | _, _, _ => None
      end
  end.
End Chart.

(** ** The page *)

(** The fields of the form: the [value] of the two selects and of the four
    inputs. *)
Module Form.
Record t : Type := mk {
  var1 : string;
  val1 : string;
  var2 : string;
  val2 : string;
  p_total : string;
  m_da_ref : string
}.
End Form.

(** What the user does to the form: choosing an option of a select sets
    its value and then fires its [change] listener; typing sets the value
    of an input; the example button sets four values itself, without a
    [change] event. *)
Inductive Event : Type :=
| SelectVar1 (v : string)
| SelectVar2 (v : string)
| TypeVal1 (s : string)
| TypeVal2 (s : string)
| TypeP_total (s : string)
| TypeM_da_ref (s : string)
| ClickExample.

Section Page.
Variables Math_exp Math_log : float -> float.
Variable parseFloat : string -> float.

(** The object the click listener of [calcBtn] passes to [solveState]. *)
Definition calcInputs (f : Form.t) : Inputs :=
  mkInputs (Form.var1 f) (Some (parseFloat (Form.val1 f)))
           (Form.var2 f) (Some (parseFloat (Form.val2 f)))
           (parseFloat (Form.p_total f)) (parseFloat (Form.m_da_ref f)).

Definition onCalculate (f : Form.t) : result State.t :=
  solveState Math_exp Math_log (calcInputs f).

(** The [change] listeners of the two selects. *)
Definition onVar1Change (f : Form.t) : Form.t :=
  let v1 := Form.var1 f in
  let v2 := Form.var2 f in
  if negb (v1 =? "")%string && (v1 =? v2)%string
  then Form.mk (Form.var1 f) (Form.val1 f) "" (Form.val2 f)
               (Form.p_total f) (Form.m_da_ref f)
  else f.

Definition onVar2Change (f : Form.t) : Form.t :=
  let v1 := Form.var1 f in
  let v2 := Form.var2 f in
  if negb (v2 =? "")%string && (v1 =? v2)%string
  then Form.mk "" (Form.val1 f) (Form.var2 f) (Form.val2 f)
               (Form.p_total f) (Form.m_da_ref f)
  else f.

(** The assignments of the click listener of [exampleBtn]. *)
Definition onExample (f : Form.t) : Form.t :=
  Form.mk "tdb" "40.227" "rh" "50.456" (Form.p_total f) (Form.m_da_ref f).

Definition react (f : Form.t) (e : Event) : Form.t :=
  match e with
  | SelectVar1 v =>
      onVar1Change (Form.mk v (Form.val1 f) (Form.var2 f) (Form.val2 f)
                            (Form.p_total f) (Form.m_da_ref f))
  | SelectVar2 v =>
      onVar2Change (Form.mk (Form.var1 f) (Form.val1 f) v (Form.val2 f)
                            (Form.p_total f) (Form.m_da_ref f))
  | TypeVal1 s =>
      Form.mk (Form.var1 f) s (Form.var2 f) (Form.val2 f)
              (Form.p_total f) (Form.m_da_ref f)
  | TypeVal2 s =>
      Form.mk (Form.var1 f) (Form.val1 f) (Form.var2 f) s
              (Form.p_total f) (Form.m_da_ref f)
  | TypeP_total s =>
      Form.mk (Form.var1 f) (Form.val1 f) (Form.var2 f) (Form.val2 f)
              s (Form.m_da_ref f)
  | TypeM_da_ref s =>
      Form.mk (Form.var1 f) (Form.val1 f) (Form.var2 f) (Form.val2 f)
              (Form.p_total f) s
  | ClickExample => onExample f
  end.
End Page.

(** ** Vocabulary of the properties *)

(** The ordered selections for which the [if] chain of [solveState] reaches
    a solver. *)
Definition reachable : list (string * string) :=
  [ ("tdb", "rh"); ("rh", "tdb"); ("tdb", "w"); ("w", "tdb");
    ("tdb", "h"); ("h", "tdb"); ("tdb", "twb"); ("twb", "tdb");
    ("w", "h"); ("h", "w"); ("tdb", "pv"); ("pv", "tdb");
    ("rh", "w"); ("w", "rh") ].

(** The nine variable kinds, the keys of [VARIABLE_EXPLANATIONS]. *)
Module Kind.
Inductive t : Type := tdb | w | rh | h | twb | tdp | pv | m_da | v_dot.

Definition id (k : t) : string :=
  match k with
  | tdb => "tdb" | w => "w" | rh => "rh" | h => "h" | twb => "twb"
  | tdp => "tdp" | pv => "pv" | m_da => "m_da" | v_dot => "v_dot"
  end.

Definition is_flow (k : t) : bool :=
  match k with
  | m_da | v_dot => true
  | _ => false
  end.
End Kind.

(** The eight unordered pairs of the documentation's table of implemented
    pairs. *)
Definition listed (k1 k2 : Kind.t) : bool :=
  match k1, k2 with
  | Kind.tdb, Kind.rh | Kind.rh, Kind.tdb
  | Kind.tdb, Kind.w | Kind.w, Kind.tdb
  | Kind.tdb, Kind.h | Kind.h, Kind.tdb
  | Kind.tdb, Kind.twb | Kind.twb, Kind.tdb
  | Kind.tdb, Kind.tdp | Kind.tdp, Kind.tdb
  | Kind.tdb, Kind.pv | Kind.pv, Kind.tdb
  | Kind.w, Kind.h | Kind.h, Kind.w
  | Kind.rh, Kind.w | Kind.w, Kind.rh => true
  | _, _ => false
  end.

(** What [solveState] adds to a solver's object when no flow variable is an
    input: [m_da = m_da_ref] and [V_dot = volumetricFlow(m_da_ref, rho)]. *)
Definition withReferenceFlow (P_total m_da_ref : float) (s : Pair.state)
  : State.t :=
  State.mk (Pair.Tdb s) (Pair.W s) (Pair.RH s) (Pair.h s) (Pair.Twb s)
           (Pair.T_dew s) (Pair.Pv s) (Pair.rho s) P_total m_da_ref
           (volumetricFlow m_da_ref (Pair.rho s)).

Definition call (k1 : Kind.t) (x : float) (k2 : Kind.t) (y : float)
           (P_total m_da_ref : float) : Inputs :=
  mkInputs (Kind.id k1) (Some x) (Kind.id k2) (Some y) P_total m_da_ref.

(** A result with the two names of an unsupported-pair error exchanged. *)
Definition swap_names {A : Type} (r : result A) : result A :=
  match r with
  | Throw (UnsupportedPair a b) => Throw (UnsupportedPair b a)
  | _ => r
  end.

Local Close Scope float_scope.

(** [stops_at maxIterations tolerance below low high b]: the [while] loop
    started on [low, high] runs [iterations b] times, each time with its
    condition true, and leaves with the bracket [b], either because the
    bracket is no longer wider than the tolerance or because the cap is
    reached. *)
Definition stops_at {N : Type} `{Arith N} (maxIterations : nat)
           (tolerance : N) (below : N -> bool) (low high : N)
           (b : Bracket N) : Prop :=
  let start := mkBracket low high 0 in
  let k := iterations b in
  k <= maxIterations /\
  b = Nat.iter k (halve below) start /\
  (forall j, j < k -> wide tolerance (Nat.iter j (halve below) start) = true) /\
  (k = maxIterations \/ wide tolerance b = false).

(** Every run of the loop from [low, high] leaves within [n] iterations,
    whatever the tests answer: checked on the tree of all runs. *)
Fixpoint leaves_within {N : Type} `{Arith N} (n : nat) (tolerance low high : N)
  : bool :=
  if (tolerance <? high - low)%num then
    match n with
    | O => false
    | S k =>
        let m := ((low + high) / dec 2 0)%num in
        leaves_within k tolerance m high && leaves_within k tolerance low m
    end
  else true.

(** The field of the returned state that shows a variable kind, as
    [displayResults] pairs the keys of the state with the kinds
    ([T_dew] with ["tdp"]). *)
Definition fieldOf (k : Kind.t) (st : State.t) : float :=
  match k with
  | Kind.tdb => State.Tdb st
  | Kind.w => State.W st
  | Kind.rh => State.RH st
  | Kind.h => State.h st
  | Kind.twb => State.Twb st
  | Kind.tdp => State.T_dew st
  | Kind.pv => State.Pv st
  | Kind.m_da => State.m_da st
  | Kind.v_dot => State.V_dot st
  end.

(** [every_run n tolerance ok b]: [ok] holds of the bracket the loop leaves
    with, on every run of at most [n] more iterations from [b], whatever
    the tests answer. *)
Fixpoint every_run {N : Type} `{Arith N} (n : nat) (tolerance : N)
         (ok : Bracket N -> bool) (b : Bracket N) : bool :=
  if wide tolerance b then
    match n with
    | O => ok b
    | S k =>
        every_run k tolerance ok
                  (mkBracket (mid b) (hi b) (S (iterations b))) &&
        every_run k tolerance ok
                  (mkBracket (lo b) (mid b) (S (iterations b)))
    end
  else ok b.

(** What every run of the loop of [solveFromWH] ends with: fourteen
    iterations and a midpoint strictly inside [-50, 100]. *)
Definition inside_WH (b : Bracket float) : bool :=
  Nat.eqb (iterations b) 14 && (-50 <? mid b)%float && (mid b <? 100)%float.






(** The temperatures of the saturation curve that are plotted, and where. *)
Definition plotted (Math_exp : float -> float) (T : float) : bool :=
  negb (W_max <? saturationHumidityRatio Math_exp T P_STD)%float.

Definition curveX (w : float) (T : float) : float := toCanvasX w T.

Definition curveY (Math_exp : float -> float) (h : float) (T : float)
  : float :=
  toCanvasY h (saturationHumidityRatio Math_exp T P_STD).

(** The selects never hold the same kind twice. *)
Definition distinct_selects (f : Form.t) : Prop :=
  Form.var1 f = Form.var2 f -> Form.var1 f = ""%string.

(** ** The property relations over the arithmetic interface

    The functions of the engine that are pure formulas, written once more
    over the arithmetic interface, with [Math.exp], [Math.log], [Infinity],
    [>=] and [Math.max] as parameters: at [float] they are the functions of
    the engine, and they can be read over the reals. *)
Module Formula.
Section Formula.
Context {N : Type} `{Arith N}.
Variables exp log : N -> N.
Variable infinity : N.
Variable ge : N -> N -> bool.
Variable max : N -> N -> N.
Local Open Scope num_scope.

Definition saturationVaporPressure (T : N) : N :=
  let a := dec 1727 2 in
  let b := dec 2377 1 in
  let p_ref := dec 6112 1 in
  let exponent := (a * T) / (b + T) in
  p_ref * exp exponent.

Definition temperatureFromSaturationPressure (p_sat : N) : N :=
  let a := dec 1727 2 in
  let b := dec 2377 1 in
  let p_ref := dec 6112 1 in
  let ratio := log (p_sat / p_ref) in
  (b * ratio) / (a - ratio).

Definition humidityRatioFromVaporPressure (Pv P_total : N) : N :=
  if ge Pv P_total then infinity
  else K_W * Pv / (P_total - Pv).

Definition vaporPressureFromHumidityRatio (W P_total : N) : N :=
  P_total * W / (K_W + W).

Definition relativeHumidity (Pv T : N) : N :=
  let p_sat := saturationVaporPressure T in
  dec 100 0 * Pv / p_sat.

Definition saturationHumidityRatio (T P_total : N) : N :=
  let p_sat := saturationVaporPressure T in
  humidityRatioFromVaporPressure p_sat P_total.

Definition wetBulbBracket (Tdb W P_total : N) : Bracket N :=
  let h_target := enthalpy Tdb W in
  let p_v := vaporPressureFromHumidityRatio W P_total in
  let T_dew := temperatureFromSaturationPressure p_v in
  let T_low := max (T_dew - dec 5 0) (dec (-50) 0) in
  let T_high := Tdb in
  let tolerance := dec 1 3 in
  let maxIterations := 50%nat in
  bisect maxIterations tolerance
         (fun T_mid =>
            let W_sat_mid := saturationHumidityRatio T_mid P_total in
            let h_mid := enthalpy T_mid W_sat_mid in
            h_mid <? h_target)
         T_low T_high.

Definition wetBulbTemperature (Tdb W P_total : N) : N :=
  mid (wetBulbBracket Tdb W P_total).

Definition density (Tdb W P_total : N) : N :=
  let T_K := Tdb + dec 27315 2 in
  let R_mix := R_DA * (dec 1 0 + dec 16078 4 * W) / (dec 1 0 + W) in
  P_total / (R_mix * T_K).

Definition volumetricFlow (m_da rho : N) : N :=
  (m_da / rho) * dec 36 1.
End Formula.
End Formula.

(** [x >= y] over the reals. *)
Definition Rgeb (x y : R) : bool := negb (Rltb x y).

(** ** Tactics *)

Ltac peel_key H :=
  repeat match type of H with
         | (?a ++ _)%string = _ =>
             is_var a; destruct a as [| ? a]; simpl in H;
             [ try discriminate H
             | first [ discriminate H | injection H as ? H; subst ] ]
         | String _ (?a ++ _)%string = _ =>
             is_var a; injection H as ? H; subst
         end;
  try discriminate H.

Ltac solver_inv H :=
  repeat match type of H with
         | (if ?c then _ else _) = Ok _ =>
             destruct c eqn:?; [discriminate H |]
         end;
  injection H as <-.

Ltac split_guards :=
  repeat match goal with
         | |- context [if ?c then _ else _] => destruct c
         end.

(** * Properties *)

(** ** The bisection loop *)

Section Loop.
Context {N : Type} `{Arith N}.
Variable tolerance : N.
Variable below : N -> bool.

Lemma iterations_halve (b : Bracket N) :
  iterations (halve below b) = S (iterations b).
Proof. unfold halve. destruct (below (mid b)); reflexivity. Qed.

Lemma iterations_iter (k : nat) (b : Bracket N) :
  iterations (Nat.iter k (halve below) b) = iterations b + k.
Proof.
  induction k as [| k IH]; simpl.
  - lia.
  - rewrite iterations_halve, IH. lia.
Qed.

(** The loop is [k] halvings, for the [k] at which it stops. *)
Lemma bisect_loop_runs (n : nat) (b : Bracket N) :
  exists k,
    k <= n /\
    bisect_loop n tolerance below b = Nat.iter k (halve below) b /\
    (forall j, j < k -> wide tolerance (Nat.iter j (halve below) b) = true) /\
    (k = n \/ wide tolerance (bisect_loop n tolerance below b) = false).
Proof.
  revert b. induction n as [| n IH]; intros b.
  - exists 0. simpl. repeat split; auto; intros; lia.
  - simpl. destruct (wide tolerance b) eqn:Wd.
    + destruct (IH (halve below b)) as (k & Hk & Hrun & Hwide & Hexit).
      exists (S k). repeat split.
      * lia.
      * rewrite Hrun. symmetry. apply Nat.iter_succ_r.
      * intros [| j] Hj; [exact Wd |].
        rewrite Nat.iter_succ_r. apply Hwide. lia.
      * destruct Hexit as [-> | Hx]; [left; reflexivity | right; exact Hx].
    + exists 0. simpl. repeat split; auto; intros; lia.
Qed.

Lemma bisect_stops (n : nat) (low high : N) :
  stops_at n tolerance below low high (bisect n tolerance below low high).
Proof.
  unfold stops_at, bisect.
  destruct (bisect_loop_runs n (mkBracket low high 0))
    as (k & Hk & Hrun & Hwide & Hexit).
  assert (Hit : iterations (bisect_loop n tolerance below
                                        (mkBracket low high 0)) = k).
  { rewrite Hrun, iterations_iter. reflexivity. }
  rewrite Hit. repeat split; auto.
Qed.

(** A property kept by each halving done under the loop condition holds
    of the final bracket. *)
Lemma bisect_loop_invariant (I : Bracket N -> Prop) :
  (forall b, I b -> wide tolerance b = true -> I (halve below b)) ->
  forall n b, I b -> I (bisect_loop n tolerance below b).
Proof.
  intros Hstep. induction n as [| n IH]; intros b Hb; simpl.
  - exact Hb.
  - destruct (wide tolerance b) eqn:Wd; [| exact Hb].
    apply IH, Hstep; assumption.
Qed.

Lemma bisect_loop_exit (n : nat) (b : Bracket N) :
  let b' := bisect_loop n tolerance below b in
  wide tolerance b' = false \/ iterations b' = iterations b + n.
Proof.
  revert b. induction n as [| n IH]; intros b; simpl.
  - right. lia.
  - destruct (wide tolerance b) eqn:Wd.
    + destruct (IH (halve below b)) as [Hx | Hx]; [left; exact Hx |].
      right. simpl in Hx. rewrite Hx, iterations_halve. lia.
    + left. exact Wd.
Qed.

Lemma leaves_within_bound (n : nat) :
  forall (m : nat) (b : Bracket N),
    leaves_within n tolerance (lo b) (hi b) = true ->
    iterations (bisect_loop m tolerance below b) <= iterations b + n.
Proof.
  induction n as [| n IH]; intros m b Hl.
  - destruct m as [| m]; simpl; [lia |].
    simpl in Hl. unfold wide.
    destruct (tolerance <? hi b - lo b)%num; [discriminate | lia].
  - destruct m as [| m]; simpl; [lia |].
    simpl in Hl. unfold wide.
    destruct (tolerance <? hi b - lo b)%num; [| lia].
    apply andb_prop in Hl. destruct Hl as [Hup Hdown].
    assert (Hh : leaves_within n tolerance (lo (halve below b))
                               (hi (halve below b)) = true).
    { unfold halve, mid. destruct (below _); simpl; assumption. }
    specialize (IH m (halve below b) Hh).
    rewrite iterations_halve in IH. lia.
Qed.

End Loop.

(** ** The pair dispatch *)

Lemma sort2_cases (a b : string) :
  (sort2 a b = [a; b] /\ String.ltb b a = false) \/
  (sort2 a b = [b; a] /\ String.ltb b a = true).
Proof.
  unfold sort2. destruct (String.ltb b a); [right | left]; split; reflexivity.
Qed.

(** ** Facts about the engine, for any [Math.exp] and [Math.log] *)

Section EngineFacts.
Variables Math_exp Math_log : float -> float.
Local Open Scope float_scope.

Abbreviation saturationVaporPressure := (saturationVaporPressure Math_exp).
Abbreviation saturationHumidityRatio := (saturationHumidityRatio Math_exp).
Abbreviation wetBulbBracket := (wetBulbBracket Math_exp Math_log).
Abbreviation wetBulbTemperature := (wetBulbTemperature Math_exp Math_log).
Abbreviation bracketFromTdbTwb := (bracketFromTdbTwb Math_exp).
Abbreviation solveFromTdbRH := (solveFromTdbRH Math_exp Math_log).
Abbreviation solveFromTdbW := (solveFromTdbW Math_exp Math_log).
Abbreviation solveFromTdbH := (solveFromTdbH Math_exp Math_log).
Abbreviation solveFromTdbTwb := (solveFromTdbTwb Math_exp Math_log).
Abbreviation solveFromTdbTdp := (solveFromTdbTdp Math_exp Math_log).
Abbreviation solveFromWH := (solveFromWH Math_exp Math_log).
Abbreviation solveFromTdbPv := (solveFromTdbPv Math_exp Math_log).
Abbreviation solveFromRHW := (solveFromRHW Math_exp Math_log).
Abbreviation resolvePair := (resolvePair Math_exp Math_log).
Abbreviation solveState := (solveState Math_exp Math_log).

Lemma resolvePair_cases (var1 : string) (val1 : float) (var2 : string)
      (val2 : float) (P : float) :
  In (var1, var2) reachable \/
  resolvePair var1 val1 var2 val2 P
  = Throw (UnsupportedPair var1 var2).
Proof.
  unfold resolvePair.
  repeat match goal with
         | |- _ \/ (if (?p =? ?k)%string then _ else _) = _ =>
             destruct (String.eqb_spec p k) as [E | _];
             [ left; clear - E | ]
         end;
    try (right; reflexivity);
    destruct (sort2_cases var1 var2) as [[S L] | [S L]];
    rewrite S in E; simpl in E; peel_key E;
    try (injection E as E; subst);
    try discriminate L;
    unfold reachable; simpl; tauto.
Qed.

Lemma withFlows_reachable (var1 var2 : string) (x y P m : float)
      (s : Pair.state) :
  In (var1, var2) reachable ->
  withFlows var1 x var2 y P m s = withReferenceFlow P m s.
Proof.
  unfold reachable. simpl. intros Hin.
  repeat (destruct Hin as [E | Hin]; [injection E as <- <-; reflexivity |]).
  contradiction.
Qed.

(** A state is returned only for a reachable selection, and is then the
    solver's object completed with the reference flow. *)
Lemma solveState_Ok (i : Inputs) (st : State.t) :
  solveState i = Ok st ->
  exists x y s,
    val1 i = Some x /\ val2 i = Some y /\
    In (var1 i, var2 i) reachable /\
    resolvePair (var1 i) x (var2 i) y (P_total i) = Ok s /\
    st = withReferenceFlow (P_total i) (m_da_ref i) s.
Proof.
  destruct i as [v1 [x |] v2 [y |] P m]; simpl; try discriminate.
  destruct ((v1 =? "")%string || (v2 =? "")%string); [discriminate |].
  destruct (v1 =? v2)%string; [discriminate |].
  destruct (resolvePair_cases v1 x v2 y P) as [Hin | Hun].
  - destruct (resolvePair v1 x v2 y P) as [s | e] eqn:Hres;
      simpl; [| discriminate].
    intros E. injection E as <-.
    exists x, y, s. repeat split; auto.
    apply withFlows_reachable, Hin.
  - rewrite Hun. discriminate.
Qed.

(** The solver each reachable selection is resolved by. *)
Lemma resolvePair_table (x y P : float) :
  resolvePair "tdb" x "rh" y P = solveFromTdbRH x y P /\
  resolvePair "rh" y "tdb" x P = solveFromTdbRH x y P /\
  resolvePair "tdb" x "w" y P = solveFromTdbW x y P /\
  resolvePair "w" y "tdb" x P = solveFromTdbW x y P /\
  resolvePair "tdb" x "h" y P = solveFromTdbH x y P /\
  resolvePair "h" y "tdb" x P = solveFromTdbH x y P /\
  resolvePair "tdb" x "twb" y P = solveFromTdbTwb x y P /\
  resolvePair "twb" y "tdb" x P = solveFromTdbTwb x y P /\
  resolvePair "w" x "h" y P = solveFromWH x y P /\
  resolvePair "h" y "w" x P = solveFromWH x y P /\
  resolvePair "tdb" x "pv" y P = solveFromTdbPv x y P /\
  resolvePair "pv" y "tdb" x P = solveFromTdbPv x y P /\
  resolvePair "rh" x "w" y P = solveFromRHW x y P /\
  resolvePair "w" y "rh" x P = solveFromRHW x y P.
Proof. repeat split; reflexivity. Qed.

(** The key the source tests for the dew-point pair, ["tdp+tdb"], is not
    the sorted key ["tdb+tdp"]: [solveFromTdbTdp] is never reached. *)
Lemma dew_point_pair_unreachable (x y P : float) :
  pair_key "tdb" "tdp" = "tdb+tdp" /\
  pair_key "tdp" "tdb" = "tdb+tdp" /\
  resolvePair "tdb" x "tdp" y P = Throw (UnsupportedPair "tdb" "tdp") /\
  resolvePair "tdp" y "tdb" x P = Throw (UnsupportedPair "tdp" "tdb").
Proof. repeat split; reflexivity. Qed.

(** *** Pair dispatch *)

(** C5, as amended.  [solveState] reaches a solver for the pairs {Tdb,RH},
    {Tdb,W}, {Tdb,h}, {Tdb,Twb}, {Tdb,Pv}, {W,h} and {RH,W}, whose result it
    completes with the flow fields; for two distinct kinds that are not one
    of the eight listed pairs it throws the unsupported-pair error, whatever
    the values, the pressure and the numeric functions are; for two
    identical kinds it throws the error that the two variables must differ,
    not the unsupported-pair error. *)
Theorem solveState_dispatch (k1 k2 : Kind.t) (x y P m : float) :
  (k1 = k2 -> solveState (call k1 x k2 y P m) = Throw SameVariables) /\
  (k1 <> k2 -> listed k1 k2 = false ->
   solveState (call k1 x k2 y P m)
   = Throw (UnsupportedPair (Kind.id k1) (Kind.id k2))) /\
  solveState (call Kind.tdb x Kind.rh y P m)
  = (s <- solveFromTdbRH x y P ;;
     Ok (withReferenceFlow P m s)) /\
  solveState (call Kind.tdb x Kind.w y P m)
  = (s <- solveFromTdbW x y P ;;
     Ok (withReferenceFlow P m s)) /\
  solveState (call Kind.tdb x Kind.h y P m)
  = (s <- solveFromTdbH x y P ;;
     Ok (withReferenceFlow P m s)) /\
  solveState (call Kind.tdb x Kind.twb y P m)
  = (s <- solveFromTdbTwb x y P ;;
     Ok (withReferenceFlow P m s)) /\
  solveState (call Kind.tdb x Kind.pv y P m)
  = (s <- solveFromTdbPv x y P ;;
     Ok (withReferenceFlow P m s)) /\
  solveState (call Kind.w x Kind.h y P m)
  = (s <- solveFromWH x y P ;;
     Ok (withReferenceFlow P m s)) /\
  solveState (call Kind.rh x Kind.w y P m)
  = (s <- solveFromRHW x y P ;;
     Ok (withReferenceFlow P m s)).
Proof.
  split; [| split].
  - intros <-. destruct k1; reflexivity.
  - intros Hne Hl.
    destruct k1, k2; try discriminate Hl; try reflexivity;
      exfalso; apply Hne; reflexivity.
  - repeat split; reflexivity.
Qed.

Lemma reachable_sym (a b : string) :
  In (a, b) reachable -> In (b, a) reachable.
Proof.
  unfold reachable. simpl. intros Hin.
  repeat (destruct Hin as [E | Hin]; [injection E as <- <-; tauto |]).
  contradiction.
Qed.

(** No solver throws the unsupported-pair error. *)
Lemma reachable_not_unsupported (var1 var2 : string) (x y P : float)
      (a b : string) :
  In (var1, var2) reachable ->
  resolvePair var1 x var2 y P <> Throw (UnsupportedPair a b).
Proof.
  unfold reachable. simpl. intros Hin.
  repeat (destruct Hin as [E | Hin];
          [ injection E as <- <-; unfold resolvePair; simpl;
            unfold solveFromTdbRH, solveFromTdbW, solveFromTdbH,
              solveFromTdbTwb, solveFromWH, solveFromTdbPv, solveFromRHW;
            split_guards; discriminate
          |]).
  contradiction.
Qed.

(** Exchanging the two selections changes nothing but the order in which
    the unsupported-pair error names them. *)
Lemma solveState_swap (var1 var2 : string) (x y : option float)
      (P m : float) :
  solveState (mkInputs var2 y var1 x P m)
  = swap_names (solveState (mkInputs var1 x var2 y P m)).
Proof.
  destruct x as [x |], y as [y |]; try reflexivity. simpl.
  rewrite (orb_comm (var2 =? "")%string).
  destruct ((var1 =? "")%string || (var2 =? "")%string); [reflexivity |].
  rewrite (String.eqb_sym var2 var1).
  destruct (var1 =? var2)%string; [reflexivity |].
  destruct (resolvePair_cases var1 x var2 y P) as [Hin | Hun].
  - revert Hin. unfold reachable. simpl. intros Hin.
    repeat (destruct Hin as [E | Hin];
            [ injection E as <- <-; unfold resolvePair; simpl;
              unfold solveFromTdbRH, solveFromTdbW, solveFromTdbH,
                solveFromTdbTwb, solveFromWH, solveFromTdbPv, solveFromRHW;
              split_guards; reflexivity
            |]).
    contradiction.
  - rewrite Hun. simpl.
    destruct (resolvePair_cases var2 y var1 x P) as [Hin | Hun'].
    + exfalso. apply reachable_sym in Hin.
      exact (reachable_not_unsupported _ _ x y P _ _ Hin Hun).
    + rewrite Hun'. reflexivity.
Qed.

(** C7.  The two argument orders of a selection that reaches a solver give
    the same result, state or error; in particular (Tdb, x; RH, y) and
    (RH, y; Tdb, x).  For any two selections at all, the two orders give the
    same state or the same error, the unsupported-pair error naming the two
    kinds in the order they were given. *)
Theorem solveState_order_independent :
  (forall (x y : option float) (P m : float),
      solveState (mkInputs "tdb" x "rh" y P m)
      = solveState (mkInputs "rh" y "tdb" x P m)) /\
  (forall (var1 var2 : string) (x y : option float) (P m : float),
      In (var1, var2) reachable ->
      solveState (mkInputs var1 x var2 y P m)
      = solveState (mkInputs var2 y var1 x P m)) /\
  (forall (var1 var2 : string) (x y : option float) (P m : float),
      solveState (mkInputs var2 y var1 x P m)
      = swap_names (solveState (mkInputs var1 x var2 y P m))).
Proof.
  split; [| split].
  - intros [x |] [y |] P m; reflexivity.
  - intros var1 var2 x y P m Hin.
    unfold reachable in Hin. simpl in Hin.
    repeat (destruct Hin as [E | Hin];
            [injection E as <- <-; destruct x, y; reflexivity |]).
    contradiction.
  - exact solveState_swap.
Qed.

(** *** Flow variables *)

(** C9, as amended.  A call that selects [m_da] or [v_dot] fails: with the
    unsupported-pair error when the two kinds differ, with the error that
    the two variables must differ when they are the same flow kind.  Every
    state returned has [m_da] equal to the reference mass flow and
    [V_dot = (m_da_ref / rho) * 3.6]. *)
Theorem flow_kinds_never_resolve :
  (forall (k1 k2 : Kind.t) (x y P m : float),
      Kind.is_flow k1 || Kind.is_flow k2 = true ->
      (k1 <> k2 ->
       solveState (call k1 x k2 y P m)
       = Throw (UnsupportedPair (Kind.id k1) (Kind.id k2))) /\
      (k1 = k2 -> solveState (call k1 x k2 y P m) = Throw SameVariables)) /\
  (forall (i : Inputs) (st : State.t),
      solveState i = Ok st ->
      State.m_da st = m_da_ref i /\
      State.V_dot st = (m_da_ref i / State.rho st) * 3.6).
Proof.
  split.
  - intros k1 k2 x y P m Hflow. split.
    + intros Hne.
      destruct k1, k2; try discriminate Hflow; try reflexivity;
        exfalso; apply Hne; reflexivity.
    + intros <-. destruct k1; reflexivity.
  - intros i st Hok.
    destruct (solveState_Ok i st Hok) as (x & y & s & _ & _ & _ & _ & ->).
    split; reflexivity.
Qed.
(** *** Wet-bulb temperature of the returned state *)

Lemma solveFromTdbRH_Twb (Tdb RH P : float) (s : Pair.state) :
  solveFromTdbRH Tdb RH P = Ok s ->
  Pair.Twb s = wetBulbTemperature (Pair.Tdb s) (Pair.W s) P.
Proof. unfold solveFromTdbRH. intros H. solver_inv H. reflexivity. Qed.

Lemma solveFromTdbW_Twb (Tdb W P : float) (s : Pair.state) :
  solveFromTdbW Tdb W P = Ok s ->
  Pair.Twb s = wetBulbTemperature (Pair.Tdb s) (Pair.W s) P.
Proof. unfold solveFromTdbW. intros H. solver_inv H. reflexivity. Qed.

Lemma solveFromTdbH_Twb (Tdb h P : float) (s : Pair.state) :
  solveFromTdbH Tdb h P = Ok s ->
  Pair.Twb s = wetBulbTemperature (Pair.Tdb s) (Pair.W s) P.
Proof. unfold solveFromTdbH. intros H. solver_inv H. reflexivity. Qed.

Lemma solveFromWH_Twb (W h P : float) (s : Pair.state) :
  solveFromWH W h P = Ok s ->
  Pair.Twb s = wetBulbTemperature (Pair.Tdb s) (Pair.W s) P.
Proof. unfold solveFromWH. intros H. solver_inv H. reflexivity. Qed.

Lemma solveFromTdbPv_Twb (Tdb Pv P : float) (s : Pair.state) :
  solveFromTdbPv Tdb Pv P = Ok s ->
  Pair.Twb s = wetBulbTemperature (Pair.Tdb s) (Pair.W s) P.
Proof. unfold solveFromTdbPv. intros H. solver_inv H. reflexivity. Qed.

Lemma solveFromRHW_Twb (RH W P : float) (s : Pair.state) :
  solveFromRHW RH W P = Ok s ->
  Pair.Twb s = wetBulbTemperature (Pair.Tdb s) (Pair.W s) P.
Proof. unfold solveFromRHW. intros H. solver_inv H. reflexivity. Qed.

Lemma solveFromTdbTwb_Twb (Tdb Twb P : float) (s : Pair.state) :
  solveFromTdbTwb Tdb Twb P = Ok s ->
  Pair.Twb s = Twb.
Proof. unfold solveFromTdbTwb. intros H. solver_inv H. reflexivity. Qed.

(** C2, as amended.  For every returned state whose pair is not {Tdb,Twb},
    the [Twb] field is [wetBulbTemperature] applied to the resolved
    [Tdb] and [W]; for the {Tdb,Twb} pair the [Twb] field is the input
    value itself, which [solveFromTdbTwb] returns without recomputing it. *)
Theorem Twb_field_of_returned_state (i : Inputs) (st : State.t) :
  solveState i = Ok st ->
  (pair_key (var1 i) (var2 i) <> "tdb+twb" ->
   State.Twb st
   = wetBulbTemperature (State.Tdb st) (State.W st) (State.P_total st)) /\
  (pair_key (var1 i) (var2 i) = "tdb+twb" ->
   Some (State.Twb st)
   = if (var1 i =? "twb")%string then val1 i else val2 i).
Proof.
  intros Hok.
  destruct (solveState_Ok i st Hok)
    as (x & y & s & Hx & Hy & Hin & Hres & ->).
  destruct i as [v1 o1 v2 o2 P m]. simpl in *. subst o1 o2.
  unfold reachable in Hin. simpl in Hin.
  repeat (destruct Hin as [E | Hin];
          [ injection E as <- <-;
            split; intros K; try discriminate K;
            try (exfalso; apply K; reflexivity)
          |]);
    try contradiction.
  all: simpl; unfold resolvePair in Hres; simpl in Hres.
  all: first
         [ apply solveFromTdbRH_Twb in Hres
         | apply solveFromTdbW_Twb in Hres
         | apply solveFromTdbH_Twb in Hres
         | apply solveFromWH_Twb in Hres
         | apply solveFromTdbPv_Twb in Hres
         | apply solveFromRHW_Twb in Hres
         | apply solveFromTdbTwb_Twb in Hres ].
  all: first [ exact Hres | rewrite Hres; reflexivity ].
Qed.

(** *** Solvers that cannot throw *)

Lemma solveFromTdbH_total (Tdb h_target P : float) :
  exists s,
    solveFromTdbH Tdb h_target P = Ok s /\
    Pair.h s = h_target /\ Pair.Tdb s = Tdb /\
    Pair.W s = mid (bracketFromTdbH Tdb h_target
                      (saturationHumidityRatio Tdb P)).
Proof. eexists. repeat split. Qed.

Lemma solveFromWH_total (W h_target P : float) :
  exists s,
    solveFromWH W h_target P = Ok s /\
    Pair.h s = h_target /\ Pair.W s = W /\
    Pair.Tdb s = mid (bracketFromWH W h_target) /\
    Pair.RH s
    = 100 * vaporPressureFromHumidityRatio W P
      / saturationVaporPressure (Pair.Tdb s).
Proof. eexists. repeat split. Qed.

Lemma solveFromRHW_total (RH W P : float) :
  exists s,
    solveFromRHW RH W P = Ok s /\ Pair.RH s = RH.
Proof. eexists. repeat split. Qed.

Lemma solveFromTdbRH_range (Tdb RH P : float) :
  (RH <? 0) || (100 <? RH) = true ->
  solveFromTdbRH Tdb RH P = Throw RHOutOfRange.
Proof. unfold solveFromTdbRH. intros ->. reflexivity. Qed.

(** C3.  What the code does with a relative humidity of 150 %: with Tdb it
    is refused as an input error; with W it is accepted and returned as the
    [RH] of the state, [solveFromRHW] having no range check. *)
Theorem RH_range_is_checked_with_Tdb_only :
  solveState (call Kind.tdb 20 Kind.rh 150 101325 1) = Throw RHOutOfRange /\
  exists st,
    solveState (call Kind.rh 150 Kind.w 0.01 101325 1) = Ok st /\
    State.RH st = 150.
Proof.
  split; [reflexivity |].
  eexists. split; reflexivity.
Qed.

(** *** Infinite humidity ratio *)

Lemma humidityRatio_infinite (Pv P : float) :
  (P <=? Pv) = true -> humidityRatioFromVaporPressure Pv P = infinity.
Proof. unfold humidityRatioFromVaporPressure. intros ->. reflexivity. Qed.

(** C4, as amended.  [humidityRatioFromVaporPressure] returns [Infinity]
    whenever [Pv >= P_total], and no solver tests for it: when the vapour
    pressure reaches the total pressure and their own guards pass,
    [solveFromTdbRH], [solveFromTdbTdp] and [solveFromTdbPv] return a state
    whose [W] is [Infinity]. *)
Theorem infinite_humidity_ratio_is_returned :
  (forall Pv P : float,
      (P <=? Pv) = true -> humidityRatioFromVaporPressure Pv P = infinity) /\
  (forall Tdb RH P : float,
      (RH <? 0) || (100 <? RH) = false ->
      (P <=? (RH / 100) * saturationVaporPressure Tdb) = true ->
      exists s, solveFromTdbRH Tdb RH P = Ok s /\
                Pair.W s = infinity) /\
  (forall Tdb Tdp P : float,
      (Tdb + 0.1 <? Tdp) = false ->
      (P <=? saturationVaporPressure Tdp) = true ->
      exists s, solveFromTdbTdp Tdb Tdp P = Ok s /\
                Pair.W s = infinity) /\
  (forall Tdb Pv P : float,
      (P <=? Pv) = true ->
      (100.5 <? 100 * Pv / saturationVaporPressure Tdb) = false ->
      exists s, solveFromTdbPv Tdb Pv P = Ok s /\
                Pair.W s = infinity).
Proof.
  split; [exact humidityRatio_infinite |]. split; [| split].
  - intros Tdb RH P Hr Hp. unfold solveFromTdbRH.
    rewrite Hr, (humidityRatio_infinite _ _ Hp).
    eexists. split; reflexivity.
  - intros Tdb Tdp P Ho Hp. unfold solveFromTdbTdp.
    rewrite Ho. eexists. split; [reflexivity |].
    simpl. apply humidityRatio_infinite, Hp.
  - intros Tdb Pv P Hp Hr. unfold solveFromTdbPv.
    rewrite Hr. eexists. split; [reflexivity |].
    simpl. apply humidityRatio_infinite, Hp.
Qed.

(** *** Iteration caps *)

Lemma bisect_iterations (n : nat) (tolerance : float) (below : float -> bool)
      (low high : float) :
  (iterations (bisect n tolerance below low high) <= n)%nat.
Proof. apply (bisect_stops tolerance below n low high). Qed.

Lemma bisect_exit (n : nat) (tolerance : float) (below : float -> bool)
      (low high : float) :
  let b := bisect n tolerance below low high in
  wide tolerance b = false \/ iterations b = n.
Proof.
  destruct (bisect_stops tolerance below n low high) as (_ & _ & _ & [E | E]);
    [right | left]; exact E.
Qed.

(** The bracket of [solveFromWH] starts as [-50, 100] and is halved whatever
    the enthalpy test answers: fourteen halvings bring it under 0.01. *)
Lemma bracketFromWH_iterations (W h_target : float) :
  (iterations (bracketFromWH W h_target) <= 14)%nat.
Proof.
  unfold bracketFromWH, bisect.
  apply (leaves_within_bound (dec 1 2) _ 14 100
                             (mkBracket (dec (-50) 0) (dec 100 0) 0)).
  vm_compute. reflexivity.
Qed.

(** C6.  Each of the four bisection loops stops after at most its cap, 50
    iterations for the two searches over a temperature and 100 for the two
    over a humidity ratio, with a bracket that is no longer wider than the
    tolerance or with the cap reached; no loop throws, and what is returned
    is the midpoint of that bracket.  ([solveFromWH] declares
    [maxIterations = 100], and its bracket is under the tolerance after
    fourteen halvings.) *)
Theorem bisection_loops_are_capped :
  (forall Tdb W P : float,
      let b := wetBulbBracket Tdb W P in
      (iterations b <= 50)%nat /\
      (wide 0.001 b = false \/ iterations b = 50%nat) /\
      wetBulbTemperature Tdb W P = (lo b + hi b) / 2) /\
  (forall W h_target P : float,
      let b := bracketFromWH W h_target in
      (iterations b <= 50)%nat /\
      wide 0.01 b = false /\
      exists s, solveFromWH W h_target P = Ok s /\
                Pair.Tdb s = (lo b + hi b) / 2) /\
  (forall Tdb h_target P : float,
      let b := bracketFromTdbH Tdb h_target
                               (saturationHumidityRatio Tdb P) in
      (iterations b <= 100)%nat /\
      (wide 1e-6 b = false \/ iterations b = 100%nat) /\
      exists s, solveFromTdbH Tdb h_target P = Ok s /\
                Pair.W s = (lo b + hi b) / 2) /\
  (forall Tdb Twb P : float,
      let b := bracketFromTdbTwb Tdb Twb P in
      (iterations b <= 100)%nat /\
      (wide 1e-6 b = false \/ iterations b = 100%nat) /\
      (solveFromTdbTwb Tdb Twb P = Throw TwbAboveTdb \/
       exists s, solveFromTdbTwb Tdb Twb P = Ok s /\
                 Pair.W s = (lo b + hi b) / 2)).
Proof.
  repeat split.
  - apply bisect_iterations.
  - apply bisect_exit.
  - pose proof (bracketFromWH_iterations W h_target). lia.
  - pose proof (bracketFromWH_iterations W h_target) as Hit.
    change 0.01 with (dec (N:=float) 1 2).
    destruct (bisect_exit 100 (dec 1 2)
                (fun T_mid => enthalpy T_mid W <? h_target)
                (dec (-50) 0) (dec 100 0)) as [Hx | Hx]; [exact Hx |].
    unfold bracketFromWH in Hit. simpl in Hit, Hx. lia.
  - eexists. split; reflexivity.
  - apply bisect_iterations.
  - change 1e-6 with (dec (N:=float) 1 6). apply bisect_exit.
  - eexists. split; reflexivity.
  - apply bisect_iterations.
  - apply bisect_exit.
  - unfold solveFromTdbTwb. destruct (Tdb <? Twb); [left; reflexivity |].
    right. eexists. split; reflexivity.
Qed.

End EngineFacts.

(** ** The exact reading: enthalpy and bisection over the reals *)

Local Close Scope float_scope.
Local Open Scope R_scope.

Lemma enthalpy_real (T W : R) :
  enthalpy T W = 1.006 * T + W * (2501 + 1.86 * T).
Proof.
  unfold enthalpy, C_DA, H_FG_0, H_FG_T. simpl. unfold R_dec. simpl. lra.
Qed.

Lemma Rltb_true (x y : R) : Rltb x y = true <-> x < y.
Proof.
  unfold Rltb. destruct (Rlt_dec x y); split; intros; auto;
    try discriminate; lra.
Qed.

Lemma Rltb_false (x y : R) : Rltb x y = false <-> y <= x.
Proof.
  unfold Rltb. destruct (Rlt_dec x y); split; intros; auto;
    try discriminate; lra.
Qed.

Lemma mid_real (b : Bracket R) : mid b = (lo b + hi b) / 2.
Proof. unfold mid. simpl. unfold R_dec. simpl. lra. Qed.

Lemma enthalpy_increasing_in_T (W T1 T2 : R) :
  0 <= W -> T1 < T2 -> enthalpy T1 W < enthalpy T2 W.
Proof. intros HW HT. rewrite !enthalpy_real. nra. Qed.

Lemma enthalpy_increasing_in_W (T W1 W2 : R) :
  0 < 2501 + 1.86 * T -> W1 < W2 -> enthalpy T W1 < enthalpy T W2.
Proof. intros HT HW. rewrite !enthalpy_real. nra. Qed.

Section RealBisection.
Variable tolerance : R.
Variable below : R -> bool.

Lemma wide_real (b : Bracket R) :
  wide tolerance b = false <-> hi b - lo b <= tolerance.
Proof. unfold wide. simpl. apply Rltb_false. Qed.

(** Each iteration halves the bracket. *)
Lemma width_halve (b : Bracket R) :
  hi (halve below b) - lo (halve below b) = (hi b - lo b) / 2.
Proof.
  unfold halve. rewrite mid_real. destruct (below _); simpl; lra.
Qed.

Lemma width_after (n : nat) (b : Bracket R) :
  let b' := bisect_loop n tolerance below b in
  (hi b' - lo b') * 2 ^ iterations b' = (hi b - lo b) * 2 ^ iterations b.
Proof.
  apply (bisect_loop_invariant tolerance below
           (fun b' => (hi b' - lo b') * 2 ^ iterations b'
                      = (hi b - lo b) * 2 ^ iterations b));
    [| reflexivity].
  intros c Hc _. rewrite width_halve, iterations_halve. simpl. lra.
Qed.

(** The loop started on a bracket of width [w] leaves with a bracket no
    wider than the tolerance, or than [w / 2^n] when the cap [n] is what
    stops it. *)
Lemma final_width (n : nat) (low high : R) :
  let b := bisect n tolerance below low high in
  hi b - lo b <= tolerance \/
  (iterations b = n /\ hi b - lo b = (high - low) / 2 ^ n).
Proof.
  intros b. subst b. unfold bisect.
  pose proof (width_after n (mkBracket low high 0)) as Hw.
  destruct (bisect_loop_exit tolerance below n (mkBracket low high 0))
    as [Hx | Hx]; simpl in *.
  - left. apply wide_real, Hx.
  - right. split; [exact Hx |].
    rewrite Hx in Hw.
    assert (Hp : 0 < 2 ^ n) by (apply pow_lt; lra).
    apply Rmult_eq_reg_r with (r := 2 ^ n); [| lra].
    rewrite Hw. field. lra.
Qed.

(** When the tests are those of an increasing function whose root [r] is in
    the bracket, the root stays in the bracket. *)
Lemma root_stays_bracketed (r low high : R) (n : nat) :
  (forall x, low <= x <= high -> (below x = true <-> x < r)) ->
  low <= r <= high ->
  let b := bisect n tolerance below low high in
  low <= lo b /\ lo b <= r /\ r <= hi b /\ hi b <= high.
Proof.
  intros Hb Hr. unfold bisect.
  apply (bisect_loop_invariant tolerance below
           (fun b => low <= lo b /\ lo b <= r /\ r <= hi b /\ hi b <= high));
    [| simpl; lra].
  intros c (H1 & H2 & H3 & H4) _.
  unfold halve. rewrite mid_real.
  assert (Hm : low <= (lo c + hi c) / 2 <= high) by lra.
  specialize (Hb _ Hm).
  destruct (below ((lo c + hi c) / 2)) eqn:E; simpl.
  - assert ((lo c + hi c) / 2 < r) by (apply Hb; reflexivity). lra.
  - assert (~ (lo c + hi c) / 2 < r).
    { intros Hlt. apply Hb in Hlt. discriminate. }
    lra.
Qed.

(** When every test answers "below", the upper end never moves. *)
Lemma stuck_at_upper_end (low high : R) (n : nat) :
  (forall x, low <= x <= high -> below x = true) ->
  low < high ->
  let b := bisect n tolerance below low high in
  hi b = high /\ low <= lo b /\ lo b < high.
Proof.
  intros Hb Hlt. unfold bisect.
  apply (bisect_loop_invariant tolerance below
           (fun b => hi b = high /\ low <= lo b /\ lo b < high));
    [| simpl; lra].
  intros c (H1 & H2 & H3) _.
  unfold halve. rewrite mid_real, H1.
  rewrite Hb by lra. simpl. lra.
Qed.

(** When no test answers "below", the lower end never moves. *)
Lemma stuck_at_lower_end (low high : R) (n : nat) :
  (forall x, low <= x <= high -> below x = false) ->
  low < high ->
  let b := bisect n tolerance below low high in
  lo b = low /\ low < hi b /\ hi b <= high.
Proof.
  intros Hb Hlt. unfold bisect.
  apply (bisect_loop_invariant tolerance below
           (fun b => lo b = low /\ low < hi b /\ hi b <= high));
    [| simpl; lra].
  intros c (H1 & H2 & H3) _.
  unfold halve. rewrite mid_real, H1.
  rewrite Hb by lra. simpl. lra.
Qed.

End RealBisection.

Lemma pow2_100 : 15000 <= 2 ^ 100.
Proof.
  assert (H14 : 2 ^ 14 <= 2 ^ 100) by (apply Rle_pow; [lra | lia]).
  assert (E14 : 2 ^ 14 = 16384) by (simpl; lra).
  lra.
Qed.

Lemma bracketFromWH_real (W h_target : R) :
  bracketFromWH W h_target
  = bisect 100 0.01 (fun T_mid => Rltb (enthalpy T_mid W) h_target) (-50) 100.
Proof.
  unfold bracketFromWH. simpl. unfold R_dec. simpl.
  replace (1e-2) with 0.01 by lra.
  replace (-50 / 1) with (-50) by lra.
  replace (100 / 1) with 100 by lra.
  reflexivity.
Qed.

Lemma bracketFromTdbH_real (Tdb h_target W_max : R) :
  bracketFromTdbH Tdb h_target W_max
  = bisect 100 0.000001 (fun W_mid => Rltb (enthalpy Tdb W_mid) h_target)
           0 W_max.
Proof.
  unfold bracketFromTdbH. simpl. unfold R_dec. simpl.
  replace (1e-6) with 0.000001 by lra.
  replace (0 / 1) with 0 by lra.
  reflexivity.
Qed.

(** The final bracket of [solveFromWH] is never wider than its tolerance. *)
Lemma bracketFromWH_narrow (W h_target : R) :
  let b := bracketFromWH W h_target in hi b - lo b <= 0.01.
Proof.
  rewrite bracketFromWH_real. cbv zeta.
  pose proof (final_width 0.01 (fun T_mid => Rltb (enthalpy T_mid W) h_target)
                          100 (-50) 100) as Hf.
  cbv zeta in Hf. destruct Hf as [Hw | [_ Hw]].
  - exact Hw.
  - rewrite Hw.
    pose proof pow2_100 as Hp.
    assert (Hpos : 0 < 2 ^ 100) by lra.
    apply Rmult_le_reg_r with (r := 2 ^ 100); [exact Hpos |].
    replace ((100 - -50) / 2 ^ 100 * 2 ^ 100) with 150 by (field; lra).
    lra.
Qed.


(** ** The engine on concrete inputs *)

Local Close Scope R_scope.
Local Open Scope float_scope.

(** The decimal literals of the shared definitions are, at [float], the
    doubles that JavaScript reads them as. *)
Lemma decimal_literals :
  (C_DA : float) = 1.006 /\ (H_FG_0 : float) = 2501 /\
  (H_FG_T : float) = 1.86 /\ (K_W : float) = 0.622 /\
  (R_DA : float) = 287.058 /\
  (dec 1 2 : float) = 0.01 /\ (dec 1 6 : float) = 1e-6 /\
  (dec (-50) 0 : float) = -50 /\ (dec 100 0 : float) = 100 /\
  (dec 2 0 : float) = 2 /\ (dec 0 0 : float) = 0.
Proof. repeat split; reflexivity. Qed.

(** C1.  What the code does with the relative humidity it computes: only
    [solveFromTdbW] and [solveFromTdbPv] test it against 100.5 and clamp
    it.  [solveFromWH] returns [100 * Pv / p_sat] as it is: 100.32 % for
    W = 0.014716 and h = 57.47 (where the {Tdb,W} solver, on the same
    state, returns 100), and more than 2000 % for W = 0.02 and h = 30;
    [solveFromTdbPv] returns a negative [RH] for a negative [Pv]; and
    [solveFromTdbTdp], called with a dew point 0.05 above Tdb, returns
    100.31 %. *)
Theorem RH_is_returned_out_of_range :
  (forall (Math_exp Math_log : float -> float) (W h_target P : float),
      exists s,
        solveFromWH Math_exp Math_log W h_target P = Ok s /\
        Pair.RH s
        = 100 * vaporPressureFromHumidityRatio W P
          / saturationVaporPressure Math_exp (Pair.Tdb s)) /\
  (exists st,
      solveState exp_ref log_ref (call Kind.w 0.014716 Kind.h 57.47 101325 1)
      = Ok st /\
      (100.3 <? State.RH st) = true /\ (State.RH st <? 100.5) = true) /\
  (exists st,
      solveState exp_ref log_ref (call Kind.tdb 20 Kind.w 0.014716 101325 1)
      = Ok st /\
      State.RH st = 100) /\
  (exists st,
      solveState exp_ref log_ref (call Kind.w 0.02 Kind.h 30 101325 1)
      = Ok st /\
      (2000 <? State.RH st) = true) /\
  (exists st,
      solveState exp_ref log_ref (call Kind.tdb 25 Kind.pv (-100) 101325 1)
      = Ok st /\
      (State.RH st <? 0) = true) /\
  (exists s,
      solveFromTdbTdp exp_ref log_ref 20 20.05 101325 = Ok s /\
      (100.3 <? Pair.RH s) = true /\ (Pair.RH s <? 100.5) = true).
Proof.
  split.
  - intros. eexists. split; reflexivity.
  - repeat split; eexists; (split; [vm_compute; reflexivity |]);
      try split; vm_compute; reflexivity.
Qed.

(** The wet-bulb temperature given with Tdb = 30 is returned as it was
    given, 5, although [wetBulbTemperature] of the resolved state is more
    than 10. *)
Lemma Twb_input_is_not_recomputed :
  exists st,
    solveState exp_ref log_ref (call Kind.tdb 30 Kind.twb 5 101325 1)
    = Ok st /\
    State.Twb st = 5 /\
    (10 <? wetBulbTemperature exp_ref log_ref (State.Tdb st) (State.W st)
                              (State.P_total st)) = true /\
    State.Twb st
    <> wetBulbTemperature exp_ref log_ref (State.Tdb st) (State.W st)
                          (State.P_total st).
Proof.
  eexists. split; [vm_compute; reflexivity |].
  split; [reflexivity |]. split; [vm_compute; reflexivity |].
  intros E. apply (f_equal (fun v => 10 <? v)) in E.
  vm_compute in E. discriminate E.
Qed.

Lemma Twb_field_of_returned_state_witness :
  (exists st,
      solveState exp_ref log_ref
                 (call Kind.tdb 40.227 Kind.rh 50.456 101325 1) = Ok st /\
      pair_key "tdb" "rh" <> "tdb+twb" /\
      State.Twb st
      = wetBulbTemperature exp_ref log_ref (State.Tdb st) (State.W st)
                           (State.P_total st)) /\
  (exists st,
      solveState exp_ref log_ref
                 (call Kind.twb 20 Kind.tdb 30 101325 1) = Ok st /\
      pair_key "twb" "tdb" = "tdb+twb" /\
      Some (State.Twb st) = Some 20).
Proof.
  split.
  - assert (H : { st | solveState exp_ref log_ref
                         (call Kind.tdb 40.227 Kind.rh 50.456 101325 1)
                       = Ok st }).
    { eexists. vm_compute. reflexivity. }
    destruct H as [st H]. exists st. split; [exact H |].
    assert (K : pair_key "tdb" "rh" <> "tdb+twb") by discriminate.
    split; [exact K |].
    exact (proj1 (Twb_field_of_returned_state exp_ref log_ref _ st H) K).
  - assert (H : { st | solveState exp_ref log_ref
                         (call Kind.twb 20 Kind.tdb 30 101325 1)
                       = Ok st }).
    { eexists. vm_compute. reflexivity. }
    destruct H as [st H]. exists st. split; [exact H |].
    assert (K : pair_key "twb" "tdb" = "tdb+twb") by reflexivity.
    split; [exact K |].
    exact (proj2 (Twb_field_of_returned_state exp_ref log_ref _ st H) K).
Defined.

(** At Tdb = 110 and RH = 100 % the saturation pressure is above the total
    pressure: the state is returned, with an infinite [W]. *)
Lemma infinite_W_is_returned :
  exists st,
    solveState exp_ref log_ref (call Kind.tdb 110 Kind.rh 100 101325 1)
    = Ok st /\
    State.W st = infinity /\
    (State.P_total st <=? State.Pv st) = true.
Proof.
  eexists. split; [vm_compute; reflexivity |].
  split; vm_compute; reflexivity.
Qed.

Lemma infinite_humidity_ratio_is_returned_witness :
  ((101325 <=? 200000) = true /\
   humidityRatioFromVaporPressure 200000 101325 = infinity) /\
  ((100 <? 0) || (100 <? 100) = false /\
   (101325 <=? (100 / 100) * saturationVaporPressure exp_ref 110) = true /\
   exists s, solveFromTdbRH exp_ref log_ref 110 100 101325 = Ok s /\
             Pair.W s = infinity) /\
  ((150 + 0.1 <? 120) = false /\
   (101325 <=? saturationVaporPressure exp_ref 120) = true /\
   exists s, solveFromTdbTdp exp_ref log_ref 150 120 101325 = Ok s /\
             Pair.W s = infinity) /\
  ((101325 <=? 200000) = true /\
   (100.5 <? 100 * 200000 / saturationVaporPressure exp_ref 150) = false /\
   exists s, solveFromTdbPv exp_ref log_ref 150 200000 101325 = Ok s /\
             Pair.W s = infinity).
Proof.
  pose proof (infinite_humidity_ratio_is_returned exp_ref log_ref)
    as (H1 & H2 & H3 & H4).
  assert (L1 : (101325 <=? 200000) = true) by reflexivity.
  assert (L2 : (100 <? 0) || (100 <? 100) = false) by reflexivity.
  assert (L3 : (101325 <=? (100 / 100) * saturationVaporPressure exp_ref 110)
               = true) by (vm_compute; reflexivity).
  assert (L4 : (150 + 0.1 <? 120) = false) by reflexivity.
  assert (L5 : (101325 <=? saturationVaporPressure exp_ref 120) = true)
    by (vm_compute; reflexivity).
  assert (L6 : (100.5 <? 100 * 200000 / saturationVaporPressure exp_ref 150)
               = false) by (vm_compute; reflexivity).
  split; [| split; [| split]].
  - split; [exact L1 |]. exact (H1 200000 101325 L1).
  - split; [exact L2 |]. split; [exact L3 |].
    exact (H2 110 100 101325 L2 L3).
  - split; [exact L4 |]. split; [exact L5 |].
    exact (H3 150 120 101325 L4 L5).
  - split; [exact L1 |]. split; [exact L6 |].
    exact (H4 150 200000 101325 L1 L6).
Defined.

(** An enthalpy of 1000 kJ/kg is out of reach for W = 0.01 on [-50, 100]:
    the state is returned with [h = 1000] and a Tdb just under 100, where
    the enthalpy is about 127. *)
Example unattainable_target :
  exists st,
    solveState exp_ref log_ref (call Kind.w 0.01 Kind.h 1000 101325 1)
    = Ok st /\
    State.h st = 1000 /\
    (99.99 <? State.Tdb st) = true /\ (State.Tdb st <? 100) = true /\
    (enthalpy (State.Tdb st) (State.W st) <? 128) = true.
Proof.
  eexists. split; [vm_compute; reflexivity |].
  repeat split; vm_compute; reflexivity.
Qed.

(** An enthalpy of 45 kJ/kg at W = 0.01 has its root at
    (45 - 25.01) / 1.0246 = 19.51...: the Tdb returned is within 0.01. *)
Example attainable_target :
  exists st,
    solveState exp_ref log_ref (call Kind.w 0.01 Kind.h 45 101325 1)
    = Ok st /\
    (abs (State.Tdb st - (45 - 25.01) / 1.0246) <? 0.01) = true.
Proof.
  eexists. split; [vm_compute; reflexivity |].
  vm_compute; reflexivity.
Qed.

(** The repository's self-test ([runSelfTest]), on the reference
    approximations. *)
Example self_test :
  (exists st,
      solveState exp_ref log_ref
                 (call Kind.tdb 40.227 Kind.rh 50.456 101325 1) = Ok st /\
      (abs (State.W st - 0.024140) <? 0.001) = true /\
      (abs (State.h st - 102.590) <? 2) = true /\
      (abs (State.Twb st - 30.589) <? 1) = true /\
      (abs (State.T_dew st - 27.950) <? 1) = true) /\
  (exists st,
      solveState exp_ref log_ref
                 (call Kind.tdb 40.227 Kind.w 0.024140 101325 1) = Ok st /\
      (abs (State.RH st - 50.456) <? 2) = true).
Proof.
  split; eexists; (split; [vm_compute; reflexivity |]);
    repeat split; vm_compute; reflexivity.
Qed.

(** Two selections of the same kind are refused before the pair is looked
    up, with their own error. *)
Lemma same_kind_is_not_unsupported_pair :
  solveState exp_ref log_ref (call Kind.tdb 20 Kind.tdb 30 101325 1)
  = Throw SameVariables /\
  solveState exp_ref log_ref (call Kind.tdb 20 Kind.tdb 30 101325 1)
  <> Throw (UnsupportedPair "tdb" "tdb").
Proof. split; [reflexivity | discriminate]. Qed.

Lemma solveState_dispatch_witness :
  (Kind.rh = Kind.rh /\
   solveState exp_ref log_ref (call Kind.rh 40 Kind.rh 50 101325 1)
   = Throw SameVariables) /\
  (Kind.m_da <> Kind.v_dot /\ listed Kind.m_da Kind.v_dot = false /\
   solveState exp_ref log_ref (call Kind.m_da 1 Kind.v_dot 3 101325 1)
   = Throw (UnsupportedPair "m_da" "v_dot")).
Proof.
  assert (Hne : Kind.m_da <> Kind.v_dot) by discriminate.
  split.
  - split; [reflexivity |].
    exact (proj1 (solveState_dispatch exp_ref log_ref
                    Kind.rh Kind.rh 40 50 101325 1) eq_refl).
  - split; [exact Hne |]. split; [reflexivity |].
    exact (proj1 (proj2 (solveState_dispatch exp_ref log_ref
                           Kind.m_da Kind.v_dot 1 3 101325 1))
                 Hne eq_refl).
Defined.

Lemma solveState_order_independent_witness :
  In ("w", "h") reachable /\
  solveState exp_ref log_ref (mkInputs "w" (Some 0.01) "h" (Some 45) 101325 1)
  = solveState exp_ref log_ref
               (mkInputs "h" (Some 45) "w" (Some 0.01) 101325 1).
Proof.
  assert (Hin : In ("w", "h") reachable) by (unfold reachable; simpl; tauto).
  split; [exact Hin |].
  exact (proj1 (proj2 (solveState_order_independent exp_ref log_ref))
               "w" "h" (Some 0.01) (Some 45) 101325 1 Hin).
Defined.

(** Selecting the same flow kind twice is refused as two identical
    variables, not as an unsupported pair. *)
Lemma same_flow_kind_is_not_unsupported_pair :
  solveState exp_ref log_ref (call Kind.m_da 1 Kind.m_da 2 101325 1)
  = Throw SameVariables /\
  solveState exp_ref log_ref (call Kind.m_da 1 Kind.m_da 2 101325 1)
  <> Throw (UnsupportedPair "m_da" "m_da").
Proof. split; [reflexivity | discriminate]. Qed.

Lemma flow_kinds_never_resolve_witness :
  (Kind.is_flow Kind.v_dot || Kind.is_flow Kind.tdb = true /\
   Kind.v_dot <> Kind.tdb /\
   solveState exp_ref log_ref (call Kind.v_dot 3 Kind.tdb 20 101325 2)
   = Throw (UnsupportedPair "v_dot" "tdb")) /\
  (Kind.is_flow Kind.v_dot || Kind.is_flow Kind.v_dot = true /\
   Kind.v_dot = Kind.v_dot /\
   solveState exp_ref log_ref (call Kind.v_dot 3 Kind.v_dot 4 101325 2)
   = Throw SameVariables) /\
  (exists st,
      solveState exp_ref log_ref (call Kind.tdb 20 Kind.w 0.01 101325 2)
      = Ok st /\
      State.m_da st = 2 /\ State.V_dot st = (2 / State.rho st) * 3.6).
Proof.
  split; [| split].
  - assert (Hne : Kind.v_dot <> Kind.tdb) by discriminate.
    split; [reflexivity |]. split; [exact Hne |].
    exact (proj1 (proj1 (flow_kinds_never_resolve exp_ref log_ref)
                        Kind.v_dot Kind.tdb 3 20 101325 2 eq_refl) Hne).
  - split; [reflexivity |]. split; [reflexivity |].
    exact (proj2 (proj1 (flow_kinds_never_resolve exp_ref log_ref)
                        Kind.v_dot Kind.v_dot 3 4 101325 2 eq_refl) eq_refl).
  - assert (H : { st | solveState exp_ref log_ref
                         (call Kind.tdb 20 Kind.w 0.01 101325 2) = Ok st }).
    { eexists. vm_compute. reflexivity. }
    destruct H as [st H]. exists st. split; [exact H |].
    exact (proj2 (flow_kinds_never_resolve exp_ref log_ref) _ st H).
Defined.

Local Close Scope float_scope.
Local Open Scope R_scope.

(** * Further properties *)

Local Close Scope R_scope.
Local Open Scope float_scope.
(** ** IEEE facts used below *)

Lemma SFcompare_opp (a b : SpecFloat.spec_float) :
  SpecFloat.SFcompare (SpecFloat.SFopp a) (SpecFloat.SFopp b)
  = SpecFloat.SFcompare b a.
Proof.
  destruct a as [[] | [] | | [] ma ea], b as [[] | [] | | [] mb eb];
    try reflexivity; simpl.
  all: rewrite (Z.compare_antisym ea eb);
    destruct (ea ?= eb)%Z; simpl; try reflexivity.
  all: rewrite ?(Pos.compare_cont_antisym ma mb Eq),
         ?(Pos.compare_cont_antisym mb ma Eq); reflexivity.
Qed.

Lemma ltb_opp (x y : float) : (- x <? - y) = (y <? x).
Proof.
  rewrite !FloatAxioms.ltb_spec, !FloatAxioms.opp_spec. unfold SpecFloat.SFltb.
  rewrite SFcompare_opp. reflexivity.
Qed.

Lemma opp_involutive (x : float) : - - x = x.
Proof.
  apply Prim2SF_inj. rewrite !FloatAxioms.opp_spec.
  destruct (Prim2SF x) as [s | s | | s m e]; simpl;
    rewrite ?negb_involutive; reflexivity.
Qed.

Lemma mul_nan_l (x : float) : nan * x = nan.
Proof. apply Prim2SF_inj. rewrite FloatAxioms.mul_spec. reflexivity. Qed.

Lemma mul_nan_r (x : float) : x * nan = nan.
Proof.
  apply Prim2SF_inj. rewrite FloatAxioms.mul_spec.
  change (Prim2SF nan) with SpecFloat.S754_nan.
  destruct (Prim2SF x); reflexivity.
Qed.

Lemma div_nan_l (x : float) : nan / x = nan.
Proof. apply Prim2SF_inj. rewrite FloatAxioms.div_spec. reflexivity. Qed.

Lemma div_nan_r (x : float) : x / nan = nan.
Proof.
  apply Prim2SF_inj. rewrite FloatAxioms.div_spec.
  change (Prim2SF nan) with SpecFloat.S754_nan.
  destruct (Prim2SF x); reflexivity.
Qed.

Lemma add_nan_r (x : float) : x + nan = nan.
Proof.
  apply Prim2SF_inj. rewrite FloatAxioms.add_spec.
  change (Prim2SF nan) with SpecFloat.S754_nan.
  destruct (Prim2SF x); reflexivity.
Qed.

Lemma sub_nan_r (x : float) : x - nan = nan.
Proof.
  apply Prim2SF_inj. rewrite FloatAxioms.sub_spec.
  change (Prim2SF nan) with SpecFloat.S754_nan.
  destruct (Prim2SF x); reflexivity.
Qed.

Lemma leb_nan_r (x : float) : (x <=? nan) = false.
Proof.
  rewrite FloatAxioms.leb_spec. change (Prim2SF nan) with SpecFloat.S754_nan.
  unfold SpecFloat.SFleb. destruct (Prim2SF x); reflexivity.
Qed.

Lemma ltb_nan_r (x : float) : (x <? nan) = false.
Proof.
  rewrite FloatAxioms.ltb_spec. change (Prim2SF nan) with SpecFloat.S754_nan.
  unfold SpecFloat.SFltb. destruct (Prim2SF x); reflexivity.
Qed.

Lemma ltb_nan_l (x : float) : (nan <? x) = false.
Proof. rewrite FloatAxioms.ltb_spec. reflexivity. Qed.

(** [Math.min(x, 100)] is never above 100. *)
Lemma Math_min_100 (x : float) : (100 <? Math_min x 100) = false.
Proof.
  unfold Math_min, Math_max.
  change (PrimFloat.opp 100) with (-100).
  destruct (is_nan (- x) || is_nan (-100)); [reflexivity |].
  destruct (- x <? -100) eqn:E1; [reflexivity |].
  assert (H : (100 <? x) = false).
  { rewrite <- E1. symmetry. apply (ltb_opp x 100). }
  destruct (-100 <? - x) eqn:E2; [rewrite opp_involutive; exact H |].
  destruct (- x =? 0) eqn:E3; [| rewrite opp_involutive; exact H].
  exfalso. revert E2 E3.
  rewrite FloatAxioms.ltb_spec, FloatAxioms.eqb_spec.
  destruct (Prim2SF (- x)) as [[] | [] | | [] m e]; vm_compute; congruence.
Qed.

Local Close Scope float_scope.

(** ** Further facts about the engine *)

Lemma every_run_sound {N : Type} `{Arith N} (tolerance : N)
      (ok : Bracket N -> bool) (below : N -> bool) (n : nat) :
  forall b : Bracket N,
    every_run n tolerance ok b = true ->
    ok (bisect_loop n tolerance below b) = true.
Proof.
  induction n as [| n IH]; intros b Hb; simpl in *.
  - destruct (wide tolerance b); exact Hb.
  - destruct (wide tolerance b); [| exact Hb].
    apply andb_prop in Hb. destruct Hb as [Hup Hdown].
    apply IH. unfold halve. destruct (below (mid b)); assumption.
Qed.

Section MoreEngineFacts.
Variables Math_exp Math_log : float -> float.
Local Open Scope float_scope.

Abbreviation saturationVaporPressure := (saturationVaporPressure Math_exp).
Abbreviation saturationHumidityRatio := (saturationHumidityRatio Math_exp).
Abbreviation wetBulbTemperature := (wetBulbTemperature Math_exp Math_log).
Abbreviation solveFromTdbRH := (solveFromTdbRH Math_exp Math_log).
Abbreviation solveFromTdbW := (solveFromTdbW Math_exp Math_log).
Abbreviation solveFromTdbH := (solveFromTdbH Math_exp Math_log).
Abbreviation solveFromTdbTwb := (solveFromTdbTwb Math_exp Math_log).
Abbreviation solveFromTdbTdp := (solveFromTdbTdp Math_exp Math_log).
Abbreviation solveFromWH := (solveFromWH Math_exp Math_log).
Abbreviation solveFromTdbPv := (solveFromTdbPv Math_exp Math_log).
Abbreviation solveFromRHW := (solveFromRHW Math_exp Math_log).
Abbreviation resolvePair := (resolvePair Math_exp Math_log).
Abbreviation solveState := (solveState Math_exp Math_log).

(** The errors a pair can end with. *)
Lemma resolvePair_Throw (var1 var2 : string) (x y P : float) (e : Error) :
  resolvePair var1 x var2 y P = Throw e ->
  (~ In (var1, var2) reachable /\ e = UnsupportedPair var1 var2) \/
  (In (var1, var2) [("tdb", "rh"); ("rh", "tdb")] /\
   (e = RHOutOfRange \/ e = ImpossibleState)) \/
  (In (var1, var2) [("tdb", "w"); ("w", "tdb")] /\
   (e = NegativeW \/ e = Supersaturated)) \/
  (In (var1, var2) [("tdb", "twb"); ("twb", "tdb")] /\ e = TwbAboveTdb) \/
  (In (var1, var2) [("tdb", "pv"); ("pv", "tdb")] /\ e = SupersaturatedPv).
Proof.
  intros Hres.
  destruct (resolvePair_cases Math_exp Math_log var1 x var2 y P)
    as [Hin | Hun].
  - right. revert Hin Hres. unfold reachable. simpl. intros Hin.
    repeat (destruct Hin as [E | Hin];
            [ injection E as <- <-; unfold resolvePair; simpl;
              unfold solveFromTdbRH, solveFromTdbW,
                solveFromTdbH, solveFromTdbTwb,
                solveFromWH, solveFromTdbPv,
                solveFromRHW;
              split_guards; intros Hres; try discriminate Hres;
              injection Hres as <-; simpl; tauto
            |]).
    contradiction.
  - left. rewrite Hun in Hres. injection Hres as <-. split; [| reflexivity].
    intros Hin.
    exact (reachable_not_unsupported Math_exp Math_log _ _ x y P _ _ Hin Hun).
Qed.

(** *** Input validation *)

(** X1.  [solveState] throws the missing-input error exactly when a variable is
    not selected or a value is null, the identical-variables error exactly
    when both are given and the two selected kinds are the same, and the
    unsupported-pair error, with the names as given, exactly when both are
    given, differ and reach no solver; no solver throws one of these
    three. *)
Theorem input_validation (i : Inputs) :
  let given :=
    var1 i <> "" /\ var2 i <> "" /\ val1 i <> None /\ val2 i <> None in
  (solveState i = Throw MissingInput <-> ~ given) /\
  (solveState i = Throw SameVariables <-> given /\ var1 i = var2 i) /\
  (forall a b : string,
      solveState i = Throw (UnsupportedPair a b) <->
      given /\ var1 i <> var2 i /\ ~ In (var1 i, var2 i) reachable /\
      a = var1 i /\ b = var2 i).
Proof.
  destruct i as [v1 o1 v2 o2 P m]. simpl. cbv zeta.
  assert (Hreach : forall x y e,
             resolvePair v1 x v2 y P = Throw e ->
             In (v1, v2) reachable ->
             e <> MissingInput /\ e <> SameVariables /\
             forall a b, e <> UnsupportedPair a b).
  { intros x y e Hres Hin.
    destruct (resolvePair_Throw _ _ _ _ _ _ Hres)
      as [[Hn _] | [[_ He] | [[_ He] | [[_ He] | [_ He]]]]];
      [contradiction | | | |];
      repeat split; try intros a b; intros ->;
      intuition discriminate. }
  destruct o1 as [x |], o2 as [y |];
    try solve [split; [| split; [| intros a b]]; split; intros;
               intuition (try discriminate; try congruence)].
  destruct (String.eqb_spec v1 "") as [E1 | N1];
    [solve [simpl; split; [| split; [| intros a b]]; split; intros;
            intuition (try discriminate; try congruence)] |].
  destruct (String.eqb_spec v2 "") as [E2 | N2];
    [solve [simpl; split; [| split; [| intros a b]]; split; intros;
            intuition (try discriminate; try congruence)] |].
  simpl.
  destruct (String.eqb_spec v1 v2) as [E12 | N12];
    [solve [split; [| split; [| intros a b]]; split; intros;
            intuition (try discriminate; try congruence)] |].
  assert (G : v1 <> "" /\ v2 <> "" /\ Some x <> None /\ Some y <> None).
  { repeat split; auto; discriminate. }
  destruct (resolvePair_cases Math_exp Math_log v1 x v2 y P) as [Hin | Hun].
  - destruct (resolvePair v1 x v2 y P) as [s | e] eqn:Hres; simpl.
    + split; [| split; [| intros a b]]; split; intros K;
        try discriminate K; tauto.
    + destruct (Hreach x y e Hres Hin) as (M1 & M2 & M3).
      split; [| split; [| intros a b]]; split; intros K;
        try (injection K as ->); try tauto.
      exfalso. exact (M3 a b eq_refl).
  - rewrite Hun. simpl.
    assert (Hn : ~ In (v1, v2) reachable).
    { intros Hin.
      exact (reachable_not_unsupported Math_exp Math_log _ _ x y P _ _
                                       Hin Hun). }
    split; [| split; [| intros a b]]; split; intros K;
      try discriminate K; try tauto.
    + injection K as <- <-. tauto.
    + destruct K as (_ & _ & _ & -> & ->). reflexivity.
Qed.

(** An error of [solveState] is one of the three input errors or the error
    of a solver. *)
Lemma solveState_Throw (i : Inputs) (e : Error) :
  solveState i = Throw e ->
  e = MissingInput \/ e = SameVariables \/
  exists x y, resolvePair (var1 i) x (var2 i) y (P_total i) = Throw e.
Proof.
  destruct i as [v1 [x |] v2 [y |] P m]; simpl;
    try (intros H; injection H as <-; tauto).
  destruct ((v1 =? "")%string || (v2 =? "")%string);
    [intros H; injection H as <-; tauto |].
  destruct (v1 =? v2)%string; [intros H; injection H as <-; tauto |].
  destruct (resolvePair v1 x v2 y P) as [s | e'] eqn:Hres; simpl;
    [discriminate |].
  intros H. injection H as <-. right. right. exists x, y. exact Hres.
Qed.

(** X2.  The physical errors come from their own pair only, and the
    dew-point ordering error of [solveFromTdbTdp] is never thrown, the
    key that [solveState] tests for it not being the sorted one. *)
Theorem errors_of_solveState (i : Inputs) (e : Error) :
  solveState i = Throw e ->
  e <> TdpAboveTdb /\
  (e = RHOutOfRange \/ e = ImpossibleState ->
   pair_key (var1 i) (var2 i) = "rh+tdb") /\
  (e = NegativeW \/ e = Supersaturated ->
   pair_key (var1 i) (var2 i) = "tdb+w") /\
  (e = TwbAboveTdb -> pair_key (var1 i) (var2 i) = "tdb+twb") /\
  (e = SupersaturatedPv -> pair_key (var1 i) (var2 i) = "pv+tdb").
Proof.
  intros H.
  destruct (solveState_Throw i e H) as [-> | [-> | (x & y & Hres)]];
    try (repeat split; intros K; try discriminate K;
         destruct K as [K | K]; discriminate K).
  destruct (resolvePair_Throw _ _ _ _ _ _ Hres)
    as [[_ ->] | [[Hin He] | [[Hin He] | [[Hin He] | [Hin He]]]]];
    try (repeat split; intros K; try discriminate K;
         destruct K as [K | K]; discriminate K).
  all: simpl in Hin.
  all: repeat (destruct Hin as [E | Hin];
               [ injection E as <- <-;
                 repeat split; intros K; try reflexivity;
                 try (destruct He as [-> | ->]); try subst e;
                 try discriminate K;
                 destruct K as [K | K]; discriminate K
               |]);
    contradiction.
Qed.

(** *** The inputs in the returned state *)

Lemma reachable_kinds (k1 k2 : Kind.t) :
  In (Kind.id k1, Kind.id k2) reachable ->
  In (k1, k2)
     [ (Kind.tdb, Kind.rh); (Kind.rh, Kind.tdb); (Kind.tdb, Kind.w);
       (Kind.w, Kind.tdb); (Kind.tdb, Kind.h); (Kind.h, Kind.tdb);
       (Kind.tdb, Kind.twb); (Kind.twb, Kind.tdb); (Kind.w, Kind.h);
       (Kind.h, Kind.w); (Kind.tdb, Kind.pv); (Kind.pv, Kind.tdb);
       (Kind.rh, Kind.w); (Kind.w, Kind.rh) ].
Proof.
  unfold reachable. simpl. intros Hin.
  repeat (destruct Hin as [E | Hin];
          [destruct k1, k2; try discriminate E; tauto |]).
  contradiction.
Qed.

(** X3.  A returned state carries the two input values unchanged in the fields
    of their kinds, and the total pressure given. *)
Theorem inputs_are_returned (k1 k2 : Kind.t) (x y P m : float)
        (st : State.t) :
  solveState (call k1 x k2 y P m) = Ok st ->
  fieldOf k1 st = x /\ fieldOf k2 st = y /\ State.P_total st = P.
Proof.
  intros Hok.
  destruct (solveState_Ok Math_exp Math_log _ st Hok)
    as (x' & y' & s & Hx & Hy & Hin & Hres & ->).
  simpl in Hx, Hy, Hin, Hres. injection Hx as <-. injection Hy as <-.
  apply reachable_kinds in Hin. simpl in Hin.
  repeat (destruct Hin as [E | Hin];
          [ injection E as <- <-; unfold resolvePair in Hres;
            simpl in Hres;
            unfold solveFromTdbRH, solveFromTdbW,
              solveFromTdbH, solveFromTdbTwb,
              solveFromWH, solveFromTdbPv,
              solveFromRHW in Hres;
            solver_inv Hres; repeat split
          |]).
  contradiction.
Qed.


Lemma solveState_resolved (var1 var2 : string) (x y P m : float) :
  var1 <> "" -> var2 <> "" -> var1 <> var2 ->
  solveState (mkInputs var1 (Some x) var2 (Some y) P m)
  = (s <- resolvePair var1 x var2 y P ;;
     Ok (withFlows var1 x var2 y P m s)).
Proof.
  intros N1 N2 N12. simpl.
  apply String.eqb_neq in N1, N2, N12. rewrite N1, N2, N12. reflexivity.
Qed.

(** *** Relative humidity and humidity ratio of the checked pairs *)

Lemma solveFromTdbRH_range_kept (Tdb RH P : float) (s : Pair.state) :
  solveFromTdbRH Tdb RH P = Ok s ->
  (100 <? Pair.RH s) = false /\ (Pair.RH s <? 0) = false /\
  (Pair.W s <? 0) = false.
Proof.
  unfold solveFromTdbRH. intros H. solver_inv H.
  cbn [Pair.RH Pair.W].
  match goal with
  | G : _ || _ = false |- _ => apply orb_false_elim in G; destruct G
  end.
  repeat split; assumption.
Qed.

Lemma solveFromTdbW_range_kept (Tdb W P : float) (s : Pair.state) :
  solveFromTdbW Tdb W P = Ok s ->
  (100 <? Pair.RH s) = false /\ (Pair.W s <? 0) = false.
Proof.
  unfold solveFromTdbW. intros H. solver_inv H.
  cbn [Pair.RH Pair.W]. split; [apply Math_min_100 | assumption].
Qed.

Lemma solveFromTdbPv_range_kept (Tdb Pv P : float) (s : Pair.state) :
  solveFromTdbPv Tdb Pv P = Ok s ->
  (100 <? Pair.RH s) = false.
Proof.
  unfold solveFromTdbPv. intros H. solver_inv H.
  cbn [Pair.RH]. apply Math_min_100.
Qed.

(** X4.  For the pairs {Tdb,RH}, {Tdb,W} and {Tdb,Pv} the returned [RH] is never
    above 100, by the input check or by [Math.min]; for {Tdb,RH} it is not
    below 0 either, and for {Tdb,RH} and {Tdb,W} the returned [W] is not
    below 0. *)
Theorem checked_pairs_stay_in_range (i : Inputs) (st : State.t) :
  solveState i = Ok st ->
  (pair_key (var1 i) (var2 i) = "rh+tdb" ->
   (100 <? State.RH st) = false /\ (State.RH st <? 0) = false /\
   (State.W st <? 0) = false) /\
  (pair_key (var1 i) (var2 i) = "tdb+w" ->
   (100 <? State.RH st) = false /\ (State.W st <? 0) = false) /\
  (pair_key (var1 i) (var2 i) = "pv+tdb" ->
   (100 <? State.RH st) = false).
Proof.
  intros Hok.
  destruct (solveState_Ok Math_exp Math_log i st Hok)
    as (x & y & s & Hx & Hy & Hin & Hres & ->).
  destruct i as [v1 o1 v2 o2 P m].
  cbn [var1 var2 val1 val2 P_total m_da_ref] in *.
  cbn [State.RH State.W withReferenceFlow].
  destruct (resolvePair_table Math_exp Math_log x y P)
    as (T1 & _ & T3 & _ & _ & _ & _ & _ & _ & _ & T11 & _).
  destruct (resolvePair_table Math_exp Math_log y x P)
    as (_ & T2 & _ & T4 & _ & _ & _ & _ & _ & _ & _ & T12 & _).
  unfold reachable in Hin. cbn [In] in Hin.
  repeat (destruct Hin as [E | Hin];
          [ injection E as <- <-;
            (split; [| split]); intros K; try discriminate K;
            first [ rewrite T1 in Hres | rewrite T2 in Hres
                  | rewrite T3 in Hres | rewrite T4 in Hres
                  | rewrite T11 in Hres | rewrite T12 in Hres ];
            first [ exact (solveFromTdbRH_range_kept _ _ _ _ Hres)
                  | exact (solveFromTdbW_range_kept _ _ _ _ Hres)
                  | exact (solveFromTdbPv_range_kept _ _ _ _ Hres) ]
          |]).
  contradiction.
Qed.

(** *** The {Tdb,Twb} pair is the {Tdb,h} pair at the saturation enthalpy *)

Lemma bracketFromTdbTwb_as_TdbH (Tdb Twb P : float) :
  bracketFromTdbTwb Math_exp Tdb Twb P
  = bracketFromTdbH Tdb (enthalpy Twb (saturationHumidityRatio Twb P))
                    (saturationHumidityRatio Tdb P).
Proof.
  unfold bracketFromTdbTwb, bracketFromTdbH.
  change (dec (N:=float) 1 6) with 1e-6.
  change (dec (N:=float) 0 0) with 0.
  reflexivity.
Qed.

(** X5.  When Twb is not above Tdb, [solveFromTdbTwb] finds the humidity ratio
    that [solveFromTdbH] finds for the enthalpy of saturated air at Twb,
    and the same [RH], [Pv], dew point and density; it returns the input
    as [Twb] and the enthalpy recomputed from the [W] found as [h], where
    [solveFromTdbH] returns its target. *)
Theorem Twb_pair_is_h_pair_at_saturation (Tdb Twb P : float) :
  (Tdb <? Twb) = false ->
  let h_sat := enthalpy Twb (saturationHumidityRatio Twb P) in
  exists s1 s2,
    solveFromTdbTwb Tdb Twb P = Ok s1 /\
    solveFromTdbH Tdb h_sat P = Ok s2 /\
    Pair.W s1 = Pair.W s2 /\ Pair.RH s1 = Pair.RH s2 /\
    Pair.Pv s1 = Pair.Pv s2 /\ Pair.T_dew s1 = Pair.T_dew s2 /\
    Pair.rho s1 = Pair.rho s2 /\
    Pair.h s1 = enthalpy Tdb (Pair.W s1) /\ Pair.h s2 = h_sat /\
    Pair.Twb s1 = Twb /\
    Pair.Twb s2 = wetBulbTemperature Tdb (Pair.W s2) P.
Proof.
  intros Hle h_sat. unfold solveFromTdbTwb, solveFromTdbH.
  rewrite Hle, bracketFromTdbTwb_as_TdbH. fold h_sat.
  eexists. eexists. split; [reflexivity |]. split; [reflexivity |].
  cbn [Pair.W Pair.RH Pair.Pv Pair.T_dew Pair.rho Pair.h Pair.Twb].
  repeat split.
Qed.

(** *** The dry-bulb temperature found by [solveFromWH] *)

Lemma bracketFromWH_inside (W h_target : float) :
  inside_WH (bracketFromWH W h_target) = true.
Proof.
  unfold bracketFromWH, bisect.
  apply every_run_sound. vm_compute. reflexivity.
Qed.

(** X6.  Whatever W and the target are (NaN and infinities included), the loop
    of [solveFromWH] runs exactly fourteen times and the Tdb returned is
    strictly between -50 and 100. *)
Theorem WH_always_inside_its_bracket (W h_target P : float) :
  exists s,
    solveFromWH W h_target P = Ok s /\
    iterations (bracketFromWH W h_target) = 14%nat /\
    (-50 <? Pair.Tdb s) = true /\ (Pair.Tdb s <? 100) = true.
Proof.
  pose proof (bracketFromWH_inside W h_target) as Hin.
  unfold inside_WH in Hin.
  apply andb_prop in Hin. destruct Hin as [Hin H100].
  apply andb_prop in Hin. destruct Hin as [H14 H50].
  apply Nat.eqb_eq in H14.
  eexists. split; [reflexivity |].
  split; [exact H14 |]. split; [exact H50 | exact H100].
Qed.

(** *** Values that are not numbers *)

Lemma humidityRatio_nan (P : float) :
  humidityRatioFromVaporPressure nan P = nan.
Proof.
  unfold humidityRatioFromVaporPressure.
  rewrite leb_nan_r, mul_nan_r, div_nan_l. reflexivity.
Qed.

Lemma vaporPressure_nan (P : float) :
  vaporPressureFromHumidityRatio nan P = nan.
Proof.
  unfold vaporPressureFromHumidityRatio.
  rewrite mul_nan_r, div_nan_l. reflexivity.
Qed.

Lemma solveFromTdbRH_nan (P : float) :
  exists s, solveFromTdbRH nan nan P = Ok s.
Proof.
  unfold solveFromTdbRH.
  change ((nan <? 0) || (100 <? nan)) with false. cbv iota zeta.
  change (nan / 100) with nan.
  rewrite mul_nan_l, humidityRatio_nan.
  change (nan <? 0) with false. cbv iota.
  eexists. reflexivity.
Qed.

Lemma solveFromTdbW_nan (P : float) :
  exists s, solveFromTdbW nan nan P = Ok s.
Proof.
  unfold solveFromTdbW.
  change (nan <? 0) with false. cbv iota zeta.
  rewrite vaporPressure_nan.
  change (100 * nan) with nan. rewrite div_nan_l.
  change (100.5 <? nan) with false. cbv iota.
  eexists. reflexivity.
Qed.

Lemma solveFromTdbPv_nan (P : float) :
  exists s, solveFromTdbPv nan nan P = Ok s.
Proof.
  unfold solveFromTdbPv. cbv zeta.
  change (100 * nan) with nan. rewrite div_nan_l.
  change (100.5 <? nan) with false. cbv iota.
  eexists. reflexivity.
Qed.

Lemma solveFromTdbTwb_nan (P : float) :
  exists s, solveFromTdbTwb nan nan P = Ok s.
Proof.
  unfold solveFromTdbTwb.
  change (nan <? nan) with false. cbv iota.
  eexists. reflexivity.
Qed.

(** X7.  A value that is NaN (what [parseFloat] gives for an empty field) passes
    every guard: with NaN for both values, every selection that reaches a
    solver returns a state. *)
Theorem NaN_values_are_not_rejected (var1 var2 : string) (P m : float) :
  In (var1, var2) reachable ->
  exists st,
    solveState (mkInputs var1 (Some nan) var2 (Some nan) P m) = Ok st.
Proof.
  intros Hin.
  assert (Hres : exists s, resolvePair var1 nan var2 nan P = Ok s).
  { destruct (resolvePair_table Math_exp Math_log nan nan P)
      as (T1 & T2 & T3 & T4 & T5 & T6 & T7 & T8 & T9 & T10 & T11 & T12
          & T13 & T14).
    revert Hin. unfold reachable. cbn [In]. intros Hin.
    repeat (destruct Hin as [E | Hin];
            [ injection E as <- <-;
              first [ rewrite T1 | rewrite T2 | rewrite T3 | rewrite T4
                    | rewrite T5 | rewrite T6 | rewrite T7 | rewrite T8
                    | rewrite T9 | rewrite T10 | rewrite T11
                    | rewrite T12 | rewrite T13 | rewrite T14 ];
              first [ apply solveFromTdbRH_nan | apply solveFromTdbW_nan
                    | apply solveFromTdbPv_nan | apply solveFromTdbTwb_nan
                    | eexists; reflexivity ]
            |]).
    contradiction. }
  destruct Hres as [s Hres].
  assert (N : var1 <> "" /\ var2 <> "" /\ var1 <> var2).
  { revert Hin. unfold reachable. cbn [In]. intros Hin.
    repeat (destruct Hin as [E | Hin];
            [injection E as <- <-; repeat split; discriminate |]).
    contradiction. }
  destruct N as (N1 & N2 & N12).
  rewrite (solveState_resolved _ _ _ _ _ _ N1 N2 N12), Hres.
  eexists. reflexivity.
Qed.

End MoreEngineFacts.

(** ** The formulas of the engine are those of the interface *)

Lemma engine_formulas (Math_exp Math_log : float -> float) :
  (forall T,
      saturationVaporPressure Math_exp T
      = Formula.saturationVaporPressure Math_exp T) /\
  (forall p,
      temperatureFromSaturationPressure Math_log p
      = Formula.temperatureFromSaturationPressure Math_log p) /\
  (forall Pv P,
      humidityRatioFromVaporPressure Pv P
      = Formula.humidityRatioFromVaporPressure
          PrimFloat.infinity (fun x y => PrimFloat.leb y x) Pv P) /\
  (forall W P,
      vaporPressureFromHumidityRatio W P
      = Formula.vaporPressureFromHumidityRatio W P) /\
  (forall Pv T,
      relativeHumidity Math_exp Pv T
      = Formula.relativeHumidity Math_exp Pv T) /\
  (forall T P,
      saturationHumidityRatio Math_exp T P
      = Formula.saturationHumidityRatio
          Math_exp PrimFloat.infinity (fun x y => PrimFloat.leb y x) T P) /\
  (forall Tdb W P,
      wetBulbTemperature Math_exp Math_log Tdb W P
      = Formula.wetBulbTemperature
          Math_exp Math_log PrimFloat.infinity
          (fun x y => PrimFloat.leb y x) Math_max Tdb W P) /\
  (forall Tdb W P, density Tdb W P = Formula.density Tdb W P) /\
  (forall m rho, volumetricFlow m rho = Formula.volumetricFlow m rho).
Proof. repeat split. Qed.

Local Close Scope float_scope.

(** ** The chart *)

Local Open Scope float_scope.

Lemma for_values_more_fuel (n : nat) :
  forall (m : nat) (x stop step : float) (l : list float),
    for_values n x stop step = Some l -> (n <= m)%nat ->
    for_values m x stop step = Some l.
Proof.
  induction n as [| n IH]; intros m x stop step l Hn Hle;
    [discriminate |].
  destruct m as [| m]; [lia |].
  simpl in *. destruct (x <=? stop); [| exact Hn].
  destruct (for_values n (x + step) stop step) as [l' |] eqn:E;
    [| discriminate].
  rewrite (IH m _ _ _ l' E) by lia. exact Hn.
Qed.

Lemma temperatureGrid_values (fuel : nat) :
  (14 <= fuel)%nat ->
  temperatureGrid fuel
  = Some [-10; -5; 0; 5; 10; 15; 20; 25; 30; 35; 40; 45; 50].
Proof.
  intros Hf. unfold temperatureGrid.
  apply (for_values_more_fuel 14); [vm_compute; reflexivity | exact Hf].
Qed.

Lemma humidityGrid_values (fuel : nat) :
  (7 <= fuel)%nat ->
  humidityGrid fuel = Some [0; 0.005; 0.01; 0.015; 0.02; 0.025].
Proof.
  intros Hf. unfold humidityGrid.
  apply (for_values_more_fuel 7); [vm_compute; reflexivity | exact Hf].
Qed.

Lemma curveTemperatures_values (fuel : nat) :
  (122 <= fuel)%nat ->
  exists Ts, curveTemperatures fuel = Some Ts /\ length Ts = 121%nat /\
             hd 0 Ts = T_min /\ last Ts 0 = T_max.
Proof.
  intros Hf. unfold curveTemperatures.
  destruct (for_values 122 T_min T_max 0.5) as [Ts |] eqn:E;
    [| vm_compute in E; discriminate].
  exists Ts. split; [apply (for_values_more_fuel 122); assumption |].
  vm_compute in E. injection E as <-. repeat split.
Qed.

(** X10.  The three loops of the chart end, whatever the canvas and the state:
    the temperature grid and its ticks are drawn for the thirteen values
    from -10 to 50, [T_max] included; the W grid and its ticks for six
    values only, from 0 to 0.025: the sum that follows 0.025 is above
    [W_max] = 0.03, and no line or tick is drawn at [W_max]; the curve is
    sampled at 121 temperatures from [T_min] to [T_max]. *)
Theorem chart_grid_stops_below_W_max (fuel : nat) :
  (122 <= fuel)%nat ->
  temperatureGrid fuel
  = Some [-10; -5; 0; 5; 10; 15; 20; 25; 30; 35; 40; 45; 50] /\
  humidityGrid fuel = Some [0; 0.005; 0.01; 0.015; 0.02; 0.025] /\
  (0.025 + 0.005 <=? W_max) = false /\
  (exists Ts, curveTemperatures fuel = Some Ts /\ length Ts = 121%nat /\
              hd 0 Ts = T_min /\ last Ts 0 = T_max) /\
  (forall (Math_exp : float -> float) (toFixed : nat -> float -> string)
          (toString : float -> string) (canvas : option (float * float))
          (state : option State.t),
      exists calls,
        drawPsychrometricChart Math_exp toFixed toString fuel canvas state
        = Some calls).
Proof.
  intros Hf.
  pose proof (temperatureGrid_values fuel ltac:(lia)) as HT.
  pose proof (humidityGrid_values fuel ltac:(lia)) as HW.
  destruct (curveTemperatures_values fuel Hf) as (Ts & HC & Hlen).
  split; [exact HT |]. split; [exact HW |]. split; [reflexivity |].
  split; [exists Ts; split; assumption |].
  intros Math_exp toFixed toString [[w h] |] state; [| eexists; reflexivity].
  unfold drawPsychrometricChart. rewrite HT, HW, HC.
  eexists. reflexivity.
Qed.

Lemma saturationCurve_continued (Math_exp : float -> float) (w h : float)
      (Ts : list float) :
  saturationCurve Math_exp w h false Ts
  = map (fun T => lineTo (curveX w T) (curveY Math_exp h T))
        (filter (plotted Math_exp) Ts).
Proof.
  induction Ts as [| T rest IH]; [reflexivity |].
  cbn [saturationCurve filter]. unfold plotted at 1.
  destruct (W_max <? saturationHumidityRatio Math_exp T P_STD);
    cbn [negb map].
  - exact IH.
  - rewrite IH. reflexivity.
Qed.

(** X11.  The saturation curve is one path through the sampled temperatures whose
    saturation ratio is not above [W_max], in their order: it starts with
    a [moveTo] at the first of them and goes on with a [lineTo] to each of
    the others, the temperatures left out being bridged by a straight
    segment; when none is plotted the path is empty. *)
Theorem saturation_curve_is_one_path
        (Math_exp : float -> float) (w h : float) (Ts : list float) :
  saturationCurve Math_exp w h true Ts
  = match filter (plotted Math_exp) Ts with
    | [] => []
    | T0 :: rest =>
        moveTo (curveX w T0) (curveY Math_exp h T0)
        :: map (fun T => lineTo (curveX w T) (curveY Math_exp h T)) rest
    end.
Proof.
  induction Ts as [| T rest IH]; [reflexivity |].
  cbn [saturationCurve filter]. unfold plotted at 1.
  destruct (W_max <? saturationHumidityRatio Math_exp T P_STD);
    cbn [negb].
  - exact IH.
  - rewrite saturationCurve_continued. reflexivity.
Qed.

Local Close Scope float_scope.

(** ** The page *)

Section PageFacts.
Variables Math_exp Math_log : float -> float.
Variable parseFloat : string -> float.

Abbreviation click := (onCalculate Math_exp Math_log parseFloat).

Lemma resolvePair_not_input_error (var1 var2 : string) (x y P : float)
      (e : Error) :
  resolvePair Math_exp Math_log var1 x var2 y P = Throw e ->
  e <> MissingInput /\ e <> SameVariables.
Proof.
  intros Hres.
  destruct (resolvePair_Throw _ _ _ _ _ _ _ _ Hres)
    as [[_ He] | [[_ He] | [[_ He] | [[_ He] | [_ He]]]]];
    split; intros ->; intuition discriminate.
Qed.

Lemma onCalculate_cases (f : Form.t) :
  (((Form.var1 f = "" \/ Form.var2 f = "") /\
    click f = Throw MissingInput) \/
   (Form.var1 f <> "" /\ Form.var2 f <> "" /\
    Form.var1 f = Form.var2 f /\ click f = Throw SameVariables) \/
   (Form.var1 f <> "" /\ Form.var2 f <> "" /\
    Form.var1 f <> Form.var2 f /\
    click f <> Throw MissingInput /\
    click f <> Throw SameVariables)).
Proof.
  unfold onCalculate, calcInputs, solveState.
  destruct (String.eqb_spec (Form.var1 f) "") as [E1 | N1];
    [left; split; [left; exact E1 | reflexivity] |].
  destruct (String.eqb_spec (Form.var2 f) "") as [E2 | N2];
    [left; split; [right; exact E2 | reflexivity] |].
  cbn [orb].
  destruct (String.eqb_spec (Form.var1 f) (Form.var2 f)) as [E | N];
    [right; left; repeat split; assumption |].
  right. right.
  split; [exact N1 |]. split; [exact N2 |]. split; [exact N |].
  destruct (resolvePair Math_exp Math_log _ _ _ _ _) as [s | e] eqn:Hres;
    cbn [bind].
  - split; discriminate.
  - destruct (resolvePair_not_input_error _ _ _ _ _ _ Hres) as [H1 H2].
    split; intros K; injection K as K; contradiction.
Qed.

(** X8.  From the page, the missing-input error is about the selects only: the
    click listener passes the result of [parseFloat] for each value, which
    is never [null], so that the error is reported exactly when one of the
    two selects is empty, whatever the value fields hold. *)
Theorem missing_input_is_about_the_selects (f : Form.t) :
  click f = Throw MissingInput <->
  Form.var1 f = "" \/ Form.var2 f = "".
Proof.
  destruct (onCalculate_cases f)
    as [[Hv Hr] | [(N1 & N2 & _ & Hr) | (N1 & N2 & _ & Hr & _)]].
  - split; intros _; assumption.
  - rewrite Hr. split; [discriminate | tauto].
  - split; [contradiction | tauto].
Qed.

Lemma react_distinct (f : Form.t) (e : Event) :
  distinct_selects f -> distinct_selects (react f e).
Proof.
  unfold distinct_selects. intros Hf.
  destruct e as [v | v | s | s | s | s |]; cbn [react]; try exact Hf.
  - unfold onVar1Change. cbn [Form.var1 Form.var2].
    destruct (String.eqb_spec v "") as [-> | Nv]; cbn [negb andb].
    + cbn [Form.var1 Form.var2]. reflexivity.
    + destruct (String.eqb_spec v (Form.var2 f)) as [E | N];
        cbn [Form.var1 Form.var2]; intros K; congruence.
  - unfold onVar2Change. cbn [Form.var1 Form.var2].
    destruct (String.eqb_spec v "") as [-> | Nv]; cbn [negb andb].
    + cbn [Form.var1 Form.var2]. intros K. exact K.
    + destruct (String.eqb_spec (Form.var1 f) v) as [E | N];
        cbn [Form.var1 Form.var2]; intros K; congruence.
  - unfold onExample. cbn [Form.var1 Form.var2]. discriminate.
Qed.

Lemma events_distinct (events : list Event) :
  forall f, distinct_selects f ->
            distinct_selects (fold_left react events f).
Proof.
  induction events as [| e rest IH]; intros f Hf; [exact Hf |].
  simpl. apply IH. apply react_distinct. exact Hf.
Qed.

(** X9.  The identical-variables error of [solveState] cannot be reached from
    the page: the [change] listeners empty the other select when the two
    hold the same kind, and the example button sets two different kinds,
    so that after any events on a form whose selects did not hold the same
    kind twice they still do not, and a click on the calculate button then
    reports a missing input where the two would be identical. *)
Theorem same_variables_cannot_be_selected
        (events : list Event) (f0 : Form.t) :
  distinct_selects f0 ->
  let f := fold_left react events f0 in
  distinct_selects f /\ click f <> Throw SameVariables.
Proof.
  intros H0 f.
  pose proof (events_distinct events f0 H0) as Hf. fold f in Hf.
  split; [exact Hf |].
  destruct (onCalculate_cases f)
    as [[_ Hr] | [(N1 & _ & E & _) | (_ & _ & _ & _ & Hr)]].
  - rewrite Hr. discriminate.
  - exfalso. apply N1. apply Hf. exact E.
  - exact Hr.
Qed.
End PageFacts.

(** ** The further facts on concrete inputs *)

Local Open Scope float_scope.

Lemma errors_of_solveState_witness :
  solveState exp_ref log_ref (call Kind.tdb 20 Kind.rh 150 101325 1)
  = Throw RHOutOfRange /\
  pair_key "tdb" "rh" = "rh+tdb".
Proof.
  assert (H : solveState exp_ref log_ref
                         (call Kind.tdb 20 Kind.rh 150 101325 1)
              = Throw RHOutOfRange) by (vm_compute; reflexivity).
  split; [exact H |].
  exact (proj1 (proj2 (errors_of_solveState exp_ref log_ref _ _ H))
               (or_introl eq_refl)).
Defined.

Lemma inputs_are_returned_witness :
  exists st,
    solveState exp_ref log_ref
               (call Kind.tdb 40.227 Kind.rh 50.456 101325 1) = Ok st /\
    fieldOf Kind.tdb st = 40.227 /\ fieldOf Kind.rh st = 50.456 /\
    State.P_total st = 101325.
Proof.
  assert (H : { st | solveState exp_ref log_ref
                       (call Kind.tdb 40.227 Kind.rh 50.456 101325 1)
                     = Ok st }).
  { eexists. vm_compute. reflexivity. }
  destruct H as [st H]. exists st. split; [exact H |].
  exact (inputs_are_returned exp_ref log_ref _ _ _ _ _ _ st H).
Defined.

Lemma checked_pairs_stay_in_range_witness :
  exists st,
    solveState exp_ref log_ref
               (call Kind.w 0.01 Kind.tdb 20 101325 1) = Ok st /\
    pair_key "w" "tdb" = "tdb+w" /\
    (100 <? State.RH st) = false /\ (State.W st <? 0) = false.
Proof.
  assert (H : { st | solveState exp_ref log_ref
                       (call Kind.w 0.01 Kind.tdb 20 101325 1)
                     = Ok st }).
  { eexists. vm_compute. reflexivity. }
  destruct H as [st H]. exists st. split; [exact H |].
  assert (K : pair_key "w" "tdb" = "tdb+w") by reflexivity.
  split; [exact K |].
  exact (proj1 (proj2 (checked_pairs_stay_in_range exp_ref log_ref _ st H))
               K).
Defined.

Lemma Twb_pair_is_h_pair_at_saturation_witness :
  (30 <? 20) = false /\
  exists s1 s2,
    solveFromTdbTwb exp_ref log_ref 30 20 101325 = Ok s1 /\
    solveFromTdbH exp_ref log_ref 30
      (enthalpy 20 (saturationHumidityRatio exp_ref 20 101325)) 101325
    = Ok s2 /\
    Pair.W s1 = Pair.W s2.
Proof.
  assert (L : (30 <? 20) = false) by reflexivity.
  split; [exact L |].
  destruct (Twb_pair_is_h_pair_at_saturation exp_ref log_ref 30 20 101325 L)
    as (s1 & s2 & H1 & H2 & HW & _).
  exists s1, s2. split; [exact H1 |]. split; [exact H2 | exact HW].
Defined.

Lemma NaN_values_are_not_rejected_witness :
  In ("tdb", "rh") reachable /\
  exists st,
    solveState exp_ref log_ref
               (mkInputs "tdb" (Some nan) "rh" (Some nan) 101325 1) = Ok st.
Proof.
  assert (Hin : In ("tdb", "rh") reachable) by (unfold reachable; simpl; tauto).
  split; [exact Hin |].
  exact (NaN_values_are_not_rejected exp_ref log_ref "tdb" "rh" 101325 1 Hin).
Defined.

Lemma chart_grid_stops_below_W_max_witness :
  (122 <= 122)%nat /\
  humidityGrid 122 = Some [0; 0.005; 0.01; 0.015; 0.02; 0.025].
Proof.
  assert (L : (122 <= 122)%nat) by lia.
  split; [exact L |].
  exact (proj1 (proj2 (chart_grid_stops_below_W_max 122 L))).
Defined.

Lemma same_variables_cannot_be_selected_witness :
  distinct_selects (Form.mk "tdb" "20" "rh" "50" "101325" "1") /\
  onCalculate exp_ref log_ref (fun _ => 20)
              (fold_left react [SelectVar2 "tdb"]
                         (Form.mk "tdb" "20" "rh" "50" "101325" "1"))
  <> Throw SameVariables.
Proof.
  assert (L : distinct_selects (Form.mk "tdb" "20" "rh" "50" "101325" "1")).
  { unfold distinct_selects. simpl. discriminate. }
  split; [exact L |].
  exact (proj2 (same_variables_cannot_be_selected
                  exp_ref log_ref (fun _ => 20) [SelectVar2 "tdb"] _ L)).
Defined.

Local Close Scope float_scope.

Local Open Scope R_scope.

(** ** The exact reading of the property relations *)

Lemma Rgeb_true (x y : R) : Rgeb x y = true <-> y <= x.
Proof.
  unfold Rgeb. rewrite negb_true_iff. apply Rltb_false.
Qed.

Lemma Rgeb_false (x y : R) : Rgeb x y = false <-> x < y.
Proof.
  unfold Rgeb. rewrite negb_false_iff. apply Rltb_true.
Qed.

Section ExactFormulas.
(** The value standing for [Infinity] is left open: the statements below
    are about arguments for which it is not returned. *)
Variable inf : R.

Abbreviation saturationVaporPressure :=
  (Formula.saturationVaporPressure exp).
Abbreviation temperatureFromSaturationPressure :=
  (Formula.temperatureFromSaturationPressure ln).
Abbreviation humidityRatioFromVaporPressure :=
  (Formula.humidityRatioFromVaporPressure inf Rgeb).
Abbreviation vaporPressureFromHumidityRatio :=
  (@Formula.vaporPressureFromHumidityRatio R _).
Abbreviation relativeHumidity := (Formula.relativeHumidity exp).
Abbreviation saturationHumidityRatio :=
  (Formula.saturationHumidityRatio exp inf Rgeb).

(** Short names, for the proofs. *)
Abbreviation p_sat := saturationVaporPressure.
Abbreviation T_of_p := temperatureFromSaturationPressure.
Abbreviation W_of_Pv := humidityRatioFromVaporPressure.
Abbreviation Pv_of_W := vaporPressureFromHumidityRatio.
Abbreviation RH_of := relativeHumidity.
Abbreviation W_sat := saturationHumidityRatio.

Lemma p_sat_real (T : R) :
  p_sat T = 611.2 * exp (17.27 * T / (237.7 + T)).
Proof.
  unfold Formula.saturationVaporPressure. simpl. unfold R_dec. simpl.
  replace (6112e-1) with 611.2 by lra.
  replace (2377e-1) with 237.7 by lra.
  replace (1727e-2) with 17.27 by lra.
  reflexivity.
Qed.

Lemma T_of_p_real (p : R) :
  T_of_p p = 237.7 * ln (p / 611.2) / (17.27 - ln (p / 611.2)).
Proof.
  unfold Formula.temperatureFromSaturationPressure. simpl. unfold R_dec. simpl.
  replace (6112e-1) with 611.2 by lra.
  replace (2377e-1) with 237.7 by lra.
  replace (1727e-2) with 17.27 by lra.
  reflexivity.
Qed.

Lemma Pv_of_W_real (W P : R) : Pv_of_W W P = P * W / (0.622 + W).
Proof.
  unfold Formula.vaporPressureFromHumidityRatio, K_W. simpl. unfold R_dec. simpl.
  replace (622e-3) with 0.622 by lra. reflexivity.
Qed.

Lemma W_of_Pv_real (Pv P : R) :
  Pv < P -> W_of_Pv Pv P = 0.622 * Pv / (P - Pv).
Proof.
  intros Hlt. unfold Formula.humidityRatioFromVaporPressure, K_W.
  rewrite (proj2 (Rgeb_false Pv P) Hlt). simpl. unfold R_dec. simpl.
  replace (622e-3) with 0.622 by lra. reflexivity.
Qed.

Lemma RH_of_real (Pv T : R) : RH_of Pv T = 100 * Pv / p_sat T.
Proof.
  unfold Formula.relativeHumidity. simpl. unfold R_dec. simpl.
  replace (100 / 1) with 100 by lra. reflexivity.
Qed.

Lemma p_sat_pos (T : R) : 0 < p_sat T.
Proof.
  rewrite p_sat_real. apply Rmult_lt_0_compat; [lra | apply Exp_prop.exp_pos].
Qed.

(** The exponent of the Magnus formula, [a*T/(b+T) = a - a*b/(b+T)]. *)
Lemma exponent_increasing (T1 T2 : R) :
  -237.7 < T1 -> T1 < T2 ->
  17.27 * T1 / (237.7 + T1) < 17.27 * T2 / (237.7 + T2).
Proof.
  intros H1 H12.
  assert (D1 : 0 < 237.7 + T1) by lra.
  assert (D2 : 0 < 237.7 + T2) by lra.
  apply Rmult_lt_reg_r with (r := (237.7 + T1) * (237.7 + T2));
    [apply Rmult_lt_0_compat; assumption |].
  replace (17.27 * T1 / (237.7 + T1) * ((237.7 + T1) * (237.7 + T2)))
    with (17.27 * T1 * (237.7 + T2)) by (field; lra).
  replace (17.27 * T2 / (237.7 + T2) * ((237.7 + T1) * (237.7 + T2)))
    with (17.27 * T2 * (237.7 + T1)) by (field; lra).
  nra.
Qed.

Lemma p_sat_increasing (T1 T2 : R) :
  -237.7 < T1 -> T1 < T2 -> p_sat T1 < p_sat T2.
Proof.
  intros H1 H12. rewrite !p_sat_real.
  apply Rmult_lt_compat_l; [lra |].
  apply exp_increasing, exponent_increasing; assumption.
Qed.

Lemma T_of_p_sat (T : R) : T <> -237.7 -> T_of_p (p_sat T) = T.
Proof.
  intros HT. rewrite T_of_p_real, p_sat_real.
  replace (611.2 * exp (17.27 * T / (237.7 + T)) / 611.2)
    with (exp (17.27 * T / (237.7 + T))) by (field; lra).
  rewrite ln_exp. field. split; lra.
Qed.

Lemma p_sat_T_of_p (p : R) :
  0 < p -> ln (p / 611.2) <> 17.27 -> p_sat (T_of_p p) = p.
Proof.
  intros Hp Hr. rewrite p_sat_real, T_of_p_real.
  set (r := ln (p / 611.2)) in *.
  replace (17.27 * (237.7 * r / (17.27 - r)) / (237.7 + 237.7 * r / (17.27 - r)))
    with r by (field; split; lra).
  unfold r. rewrite exp_ln; [field; lra |].
  apply Rdiv_lt_0_compat; lra.
Qed.

(** X12.  The round trip of the saturation pressure: the temperature recovered
    from the saturation pressure at T is T (for every T but -237.7, where
    the exponent is undefined), and the saturation pressure at the
    temperature recovered from a pressure p is p (for every p > 0 but the
    one whose logarithm makes the denominator vanish). *)
Theorem saturation_pressure_round_trip :
  (forall T : R,
      T <> -237.7 ->
      temperatureFromSaturationPressure (saturationVaporPressure T) = T) /\
  (forall p : R,
      0 < p -> p <> 611.2 * exp 17.27 ->
      saturationVaporPressure (temperatureFromSaturationPressure p) = p).
Proof.
  split; [exact T_of_p_sat |].
  intros p Hp Hne. apply p_sat_T_of_p; [exact Hp |].
  intros Hln. apply Hne.
  assert (Hq : 0 < p / 611.2) by (apply Rdiv_lt_0_compat; lra).
  rewrite <- Hln. rewrite (exp_ln _ Hq). lra.
Qed.

(** X13.  The saturation pressure is positive at every temperature but
    -237.7 degrees, where the exponent is undefined, is the reference
    pressure 611.2 Pa at 0 degrees, and is strictly increasing above -237.7
    degrees. *)
Theorem saturation_pressure_increasing :
  (forall T : R, T <> -237.7 -> 0 < saturationVaporPressure T) /\
  saturationVaporPressure 0 = 611.2 /\
  (forall T1 T2 : R,
      -237.7 < T1 -> T1 < T2 ->
      saturationVaporPressure T1 < saturationVaporPressure T2).
Proof.
  split; [intros T _; apply p_sat_pos |].
  split; [| exact p_sat_increasing].
  rewrite p_sat_real.
  replace (17.27 * 0 / (237.7 + 0)) with 0 by (field; lra).
  rewrite exp_0. lra.
Qed.

Lemma Pv_of_W_below (W P : R) :
  0 < P -> -0.622 < W -> Pv_of_W W P < P.
Proof.
  intros HP HW. rewrite Pv_of_W_real.
  apply Rmult_lt_reg_r with (r := 0.622 + W); [lra |].
  replace (P * W / (0.622 + W) * (0.622 + W)) with (P * W) by (field; lra).
  nra.
Qed.

Lemma Pv_of_W_of_Pv (Pv P : R) :
  0 < P -> Pv < P -> Pv_of_W (W_of_Pv Pv P) P = Pv.
Proof.
  intros HP Hlt.
  rewrite (W_of_Pv_real Pv P Hlt), Pv_of_W_real. field. split; lra.
Qed.

Lemma W_of_Pv_of_W (W P : R) :
  0 < P -> -0.622 < W -> W_of_Pv (Pv_of_W W P) P = W.
Proof.
  intros HP HW.
  rewrite (W_of_Pv_real _ _ (Pv_of_W_below W P HP HW)), Pv_of_W_real.
  field. split; [lra |]. nra.
Qed.

(** X14.  The round trip between vapour pressure and humidity ratio: below the
    total pressure, the vapour pressure of the humidity ratio of Pv is Pv,
    and, above -0.622, the humidity ratio of the vapour pressure of W is
    W; a vapour pressure in [0, P_total) has a humidity ratio that is not
    negative. *)
Theorem humidity_ratio_round_trip :
  (forall Pv P : R,
      0 < P -> Pv < P ->
      vaporPressureFromHumidityRatio (humidityRatioFromVaporPressure Pv P) P
      = Pv) /\
  (forall W P : R,
      0 < P -> -0.622 < W ->
      humidityRatioFromVaporPressure (vaporPressureFromHumidityRatio W P) P
      = W) /\
  (forall Pv P : R,
      0 <= Pv -> Pv < P -> 0 <= humidityRatioFromVaporPressure Pv P).
Proof.
  split; [exact Pv_of_W_of_Pv | split; [exact W_of_Pv_of_W |]].
  intros Pv P H0 Hlt. rewrite (W_of_Pv_real Pv P Hlt).
  apply Rmult_le_pos; [lra |].
  apply Rlt_le, Rinv_0_lt_compat. lra.
Qed.

Lemma T_of_p_above (Pv : R) :
  0 < Pv -> Pv < 611.2 * exp 17.27 -> -237.7 < T_of_p Pv.
Proof.
  intros H0 Hlt. rewrite T_of_p_real.
  set (r := ln (Pv / 611.2)).
  assert (Hr : r < 17.27).
  { unfold r. rewrite <- (ln_exp 17.27). apply ln_increasing.
    - apply Rdiv_lt_0_compat; lra.
    - apply Rmult_lt_reg_r with (r := 611.2); [lra |].
      replace (Pv / 611.2 * 611.2) with Pv by (field; lra). lra. }
  replace (237.7 * r / (17.27 - r))
    with (237.7 * 17.27 / (17.27 - r) - 237.7) by (field; lra).
  assert (0 < 237.7 * 17.27 / (17.27 - r)).
  { apply Rdiv_lt_0_compat; lra. }
  lra.
Qed.

(** X15.  The dew point is above the dry-bulb temperature exactly when the
    relative humidity is above 100. *)
Theorem dew_point_against_relative_humidity (Pv T : R) :
  0 < Pv -> Pv < 611.2 * exp 17.27 -> -237.7 < T ->
  (relativeHumidity Pv T <= 100 <->
   temperatureFromSaturationPressure Pv <= T) /\
  (relativeHumidity Pv T = 100 <->
   temperatureFromSaturationPressure Pv = T).
Proof.
  intros H0 Hlt HT.
  pose proof (T_of_p_above Pv H0 Hlt) as Hd.
  assert (Hp : p_sat (T_of_p Pv) = Pv).
  { apply p_sat_T_of_p; [exact H0 |].
    intros Hln.
    assert (Hq : 0 < Pv / 611.2) by (apply Rdiv_lt_0_compat; lra).
    assert (E : Pv / 611.2 = exp 17.27).
    { rewrite <- Hln. symmetry. apply exp_ln. exact Hq. }
    assert (Pv = 611.2 * exp 17.27) by (rewrite <- E; lra).
    lra. }
  pose proof (p_sat_pos T) as Hpos.
  assert (Hle : RH_of Pv T <= 100 <-> Pv <= p_sat T).
  { rewrite RH_of_real. split; intros Hx.
    - apply Rmult_le_reg_r with (r := / p_sat T);
        [apply Rinv_0_lt_compat; exact Hpos |].
      rewrite Rinv_r by lra. unfold Rdiv in Hx. lra.
    - apply Rmult_le_reg_r with (r := p_sat T); [exact Hpos |].
      replace (100 * Pv / p_sat T * p_sat T) with (100 * Pv)
        by (field; lra).
      lra. }
  assert (Hmono : forall a b, -237.7 < a -> -237.7 < b ->
                              (p_sat a <= p_sat b <-> a <= b)).
  { intros a b Ha Hb. split; intros Hx.
    - destruct (Rle_or_lt a b) as [Hab | Hab]; [exact Hab |].
      pose proof (p_sat_increasing b a Hb Hab). lra.
    - destruct Hx as [Hx | ->]; [| lra].
      pose proof (p_sat_increasing a b Ha Hx). lra. }
  split.
  - rewrite Hle, <- Hp at 1. apply Hmono; assumption.
  - split; intros Hx.
    + apply Rle_antisym.
      * apply (Hmono _ _ Hd HT). rewrite Hp. apply Hle. lra.
      * apply (Hmono _ _ HT Hd). rewrite Hp.
        rewrite RH_of_real in Hx.
        assert (E : 100 * Pv / p_sat T * p_sat T = 100 * Pv)
          by (field; lra).
        rewrite Hx in E. lra.
    + rewrite RH_of_real, <- Hx, Hp. field. lra.
Qed.

(** X16.  The relative humidity that [solveFromTdbW] computes from the
    humidity ratio that [solveFromTdbRH] computes is the relative humidity
    given, at every dry-bulb temperature but -237.7 degrees, where the
    saturation pressure is undefined. *)
Theorem relative_humidity_round_trip (Tdb RH P : R) :
  Tdb <> -237.7 ->
  0 < P -> RH / 100 * saturationVaporPressure Tdb < P ->
  let Pv := RH / 100 * saturationVaporPressure Tdb in
  let W := humidityRatioFromVaporPressure Pv P in
  100 * vaporPressureFromHumidityRatio W P / saturationVaporPressure Tdb
  = RH.
Proof.
  intros _ HP Hlt Pv W. subst W Pv.
  rewrite (Pv_of_W_of_Pv _ _ HP Hlt).
  pose proof (p_sat_pos Tdb). field. lra.
Qed.

Lemma ln_ratio_ne (p : R) :
  0 < p -> p <> 611.2 * exp 17.27 -> ln (p / 611.2) <> 17.27.
Proof.
  intros Hp Hne Hln. apply Hne.
  assert (Hq : 0 < p / 611.2) by (apply Rdiv_lt_0_compat; lra).
  rewrite <- Hln. rewrite (exp_ln _ Hq). lra.
Qed.

(** X17.  The dry-bulb temperature that [solveFromRHW] computes is the one at
    which the vapour pressure of W is the given share of the saturation
    pressure: the relative humidity of the state found is the RH given. *)
Theorem RHW_pair_is_consistent (RH W P : R) :
  0 < RH -> 0 < W -> 0 < P ->
  100 * vaporPressureFromHumidityRatio W P / RH <> 611.2 * exp 17.27 ->
  let Pv := vaporPressureFromHumidityRatio W P in
  let Tdb := temperatureFromSaturationPressure (100 * Pv / RH) in
  relativeHumidity Pv Tdb = RH.
Proof.
  intros HRH HW HP Hne Pv0 Tdb. subst Tdb Pv0.
  assert (HPv : 0 < Pv_of_W W P).
  { rewrite Pv_of_W_real. apply Rdiv_lt_0_compat; [| lra].
    apply Rmult_lt_0_compat; assumption. }
  set (Pv := Pv_of_W W P) in *.
  assert (Hp : 0 < 100 * Pv / RH).
  { apply Rdiv_lt_0_compat; lra. }
  rewrite RH_of_real.
  rewrite (p_sat_T_of_p _ Hp (ln_ratio_ne _ Hp Hne)).
  field. split; lra.
Qed.
End ExactFormulas.

(** *** The bisection loop over the reals *)

Lemma bracket_stays_inside (tolerance : R) (below : R -> bool)
      (low high : R) (n : nat) :
  low <= high ->
  let b := bisect n tolerance below low high in
  low <= lo b /\ lo b <= hi b /\ hi b <= high.
Proof.
  intros Hle. unfold bisect.
  apply (bisect_loop_invariant tolerance below
           (fun b => low <= lo b /\ lo b <= hi b /\ hi b <= high));
    [| simpl; lra].
  intros c (H1 & H2 & H3) _.
  unfold halve. rewrite mid_real.
  destruct (below ((lo c + hi c) / 2)); simpl; lra.
Qed.

Lemma bisect_not_wide (tolerance : R) (below : R -> bool)
      (low high : R) (n : nat) :
  high - low <= tolerance ->
  bisect n tolerance below low high = mkBracket low high 0.
Proof.
  intros Hw. unfold bisect. destruct n as [| n]; [reflexivity |].
  cbn [bisect_loop].
  assert (E : wide tolerance (mkBracket low high 0) = false)
    by (apply wide_real; exact Hw).
  rewrite E. reflexivity.
Qed.

Lemma pow2_40 : 1000000000000 <= 2 ^ 40.
Proof.
  assert (E10 : 2 ^ 10 = 1024) by (simpl; lra).
  replace (2 ^ 40) with ((2 ^ 10) * (2 ^ 10) * (2 ^ 10) * (2 ^ 10))
    by (rewrite <- !pow_add; reflexivity).
  rewrite E10. lra.
Qed.

Lemma pow2_50 : 1000000000000 <= 2 ^ 50.
Proof.
  pose proof pow2_40.
  assert (2 ^ 40 <= 2 ^ 50) by (apply Rle_pow; [lra | lia]).
  lra.
Qed.

Lemma pow2_100_large : 1000000000000 <= 2 ^ 100.
Proof.
  pose proof pow2_40.
  assert (2 ^ 40 <= 2 ^ 100) by (apply Rle_pow; [lra | lia]).
  lra.
Qed.

(** X18.  What the loop is for: when the test is that of a function that crosses
    its target at [r], increasing through it, and [r] is in the starting
    bracket, the loop leaves with a bracket that lies in the starting one,
    still holds [r], and is no wider than the tolerance, or than the
    starting width over [2^n] when the cap stops it; the midpoint that is
    returned is within half that width of [r]. *)
Theorem bisection_encloses_the_root
        (tolerance low high r : R) (below : R -> bool) (n : nat) :
  low <= r <= high ->
  (forall x, low <= x <= high -> (below x = true <-> x < r)) ->
  let b := bisect n tolerance below low high in
  low <= lo b /\ lo b <= r <= hi b /\ hi b <= high /\
  Rabs (mid b - r) <= (hi b - lo b) / 2 /\
  (hi b - lo b <= tolerance \/
   (iterations b = n /\ hi b - lo b = (high - low) / 2 ^ n)).
Proof.
  intros Hr Hb b.
  destruct (root_stays_bracketed tolerance below r low high n Hb Hr)
    as (H1 & H2 & H3 & H4).
  fold b in H1, H2, H3, H4.
  split; [exact H1 |]. split; [split; assumption |].
  split; [exact H4 |]. split.
  - rewrite mid_real. apply Rabs_le. lra.
  - apply final_width.
Qed.

(** *** The search of [solveFromTdbH] *)

Lemma bracketFromTdbH_close (Tdb h_target W_max root : R) :
  0 <= root <= W_max -> W_max <= 1000000 ->
  (forall x, 0 <= x <= W_max ->
             (Rltb (enthalpy Tdb x) h_target = true <-> x < root)) ->
  Rabs (mid (bracketFromTdbH Tdb h_target W_max) - root) <= 0.0000005.
Proof.
  intros Hr Hmax Hb. rewrite bracketFromTdbH_real.
  set (below := fun W_mid => Rltb (enthalpy Tdb W_mid) h_target) in *.
  destruct (root_stays_bracketed 0.000001 below root 0 W_max 100 Hb Hr)
    as (H1 & H2 & H3 & H4).
  pose proof (final_width 0.000001 below 100 0 W_max) as Hf.
  cbv zeta in Hf.
  set (b := bisect 100 0.000001 below 0 W_max) in *.
  assert (Hw : hi b - lo b <= 0.000001).
  { destruct Hf as [Hf | [_ Hf]]; [exact Hf |].
    rewrite Hf.
    pose proof pow2_100_large as Hp.
    assert (Hpos : 0 < 2 ^ 100) by lra.
    apply Rmult_le_reg_r with (r := 2 ^ 100); [exact Hpos |].
    replace ((W_max - 0) / 2 ^ 100 * 2 ^ 100) with W_max by (field; lra).
    nra. }
  rewrite mid_real. apply Rabs_le. lra.
Qed.

(** X19.  For a dry-bulb temperature above -1344.6 degrees (where the enthalpy
    increases with W), a saturation ratio [W_max] of at most a million and
    a target between the enthalpies at 0 and at [W_max], there is one
    humidity ratio of that enthalpy, it lies in [0, W_max], and the W that
    the loop of [solveFromTdbH] returns is within 0.0000005 of it. *)
Theorem TdbH_search_converges (Tdb h_target W_max : R) :
  0 < 2501 + 1.86 * Tdb ->
  0 <= W_max <= 1000000 ->
  enthalpy Tdb 0 <= h_target <= enthalpy Tdb W_max ->
  exists root : R,
    0 <= root <= W_max /\
    enthalpy Tdb root = h_target /\
    (forall W : R, enthalpy Tdb W = h_target -> W = root) /\
    Rabs (mid (bracketFromTdbH Tdb h_target W_max) - root) <= 0.0000005.
Proof.
  intros HT HW Hh. rewrite !enthalpy_real in Hh.
  set (D := 2501 + 1.86 * Tdb) in *.
  exists ((h_target - 1.006 * Tdb) / D).
  set (root := (h_target - 1.006 * Tdb) / D).
  assert (Hroot : root * D = h_target - 1.006 * Tdb).
  { unfold root. field. lra. }
  assert (Hlin : forall W, enthalpy Tdb W = 1.006 * Tdb + W * D).
  { intros W. rewrite enthalpy_real. reflexivity. }
  assert (Hin : 0 <= root <= W_max) by (split; nra).
  split; [exact Hin |]. split; [rewrite Hlin; lra |]. split.
  - intros W E. rewrite Hlin in E.
    apply Rmult_eq_reg_r with (r := D); lra.
  - apply bracketFromTdbH_close; [exact Hin | lra |].
    intros x _. rewrite Rltb_true, Hlin. split; intros Hx; nra.
Qed.

(** *** Wet-bulb temperature *)

Section ExactWetBulb.
Variable inf : R.

Abbreviation saturationVaporPressure :=
  (Formula.saturationVaporPressure exp).
Abbreviation temperatureFromSaturationPressure :=
  (Formula.temperatureFromSaturationPressure ln).
Abbreviation humidityRatioFromVaporPressure :=
  (Formula.humidityRatioFromVaporPressure inf Rgeb).
Abbreviation vaporPressureFromHumidityRatio :=
  (@Formula.vaporPressureFromHumidityRatio R _).
Abbreviation saturationHumidityRatio :=
  (Formula.saturationHumidityRatio exp inf Rgeb).
Abbreviation wetBulbBracket :=
  (Formula.wetBulbBracket exp ln inf Rgeb Rmax).
Abbreviation wetBulbTemperature :=
  (Formula.wetBulbTemperature exp ln inf Rgeb Rmax).

(** Short names, for the proofs. *)
Abbreviation p_sat := saturationVaporPressure.
Abbreviation T_of_p := temperatureFromSaturationPressure.
Abbreviation W_of_Pv := humidityRatioFromVaporPressure.
Abbreviation Pv_of_W := vaporPressureFromHumidityRatio.
Abbreviation W_sat := saturationHumidityRatio.
Abbreviation Twb_bracket := wetBulbBracket.
Abbreviation Twb_of := wetBulbTemperature.

(** The lower end of the search of [wetBulbTemperature]. *)
Abbreviation T_low W P := (Rmax (T_of_p (Pv_of_W W P) - 5) (-50)).

Lemma wetBulbBracket_real (Tdb W P : R) :
  Twb_bracket Tdb W P
  = bisect 50 0.001
           (fun T_mid => Rltb (enthalpy T_mid (W_sat T_mid P)) (enthalpy Tdb W))
           (T_low W P) Tdb.
Proof.
  unfold Formula.wetBulbBracket. simpl. unfold R_dec. simpl.
  replace (1e-3) with 0.001 by lra.
  replace (-50 / 1) with (-50) by lra.
  replace (5 / 1) with 5 by lra.
  reflexivity.
Qed.

Lemma W_sat_real (T P : R) :
  p_sat T < P -> W_sat T P = 0.622 * p_sat T / (P - p_sat T).
Proof.
  intros Hlt. unfold Formula.saturationHumidityRatio. cbv zeta.
  apply W_of_Pv_real. exact Hlt.
Qed.

Lemma W_sat_increasing (T1 T2 P : R) :
  -237.7 < T1 -> T1 < T2 -> p_sat T2 < P ->
  0 < W_sat T1 P < W_sat T2 P.
Proof.
  intros H1 H12 HP.
  pose proof (p_sat_increasing T1 T2 H1 H12) as Hinc.
  pose proof (p_sat_pos T1) as Hpos.
  rewrite !W_sat_real by lra.
  set (p1 := p_sat T1) in *. set (p2 := p_sat T2) in *.
  assert (Hd1 : 0 < / (P - p1)) by (apply Rinv_0_lt_compat; lra).
  assert (Hd2 : 0 < / (P - p2)) by (apply Rinv_0_lt_compat; lra).
  split.
  - unfold Rdiv. apply Rmult_lt_0_compat; lra.
  - apply Rmult_lt_reg_r with (r := (P - p1) * (P - p2)); [nra |].
    replace (0.622 * p1 / (P - p1) * ((P - p1) * (P - p2)))
      with (0.622 * p1 * (P - p2)) by (field; lra).
    replace (0.622 * p2 / (P - p2) * ((P - p1) * (P - p2)))
      with (0.622 * p2 * (P - p1)) by (field; lra).
    nra.
Qed.

Lemma saturation_enthalpy_increasing (T1 T2 P : R) :
  -50 <= T1 -> T1 < T2 -> p_sat T2 < P ->
  enthalpy T1 (W_sat T1 P) < enthalpy T2 (W_sat T2 P).
Proof.
  intros H1 H12 HP.
  assert (Hw : 0 < W_sat T1 P < W_sat T2 P)
    by (apply W_sat_increasing; lra).
  rewrite !enthalpy_real.
  set (w1 := W_sat T1 P) in *. set (w2 := W_sat T2 P) in *.
  nra.
Qed.

Lemma wetBulb_inside (Tdb W P : R) :
  T_low W P <= Tdb -> T_low W P <= Twb_of Tdb W P <= Tdb.
Proof.
  intros Hle. unfold Formula.wetBulbTemperature.
  rewrite wetBulbBracket_real, mid_real.
  destruct (bracket_stays_inside
              0.001
              (fun T_mid =>
                 Rltb (enthalpy T_mid (W_sat T_mid P)) (enthalpy Tdb W))
              (T_low W P) Tdb 50 Hle) as (H1 & H2 & H3).
  lra.
Qed.

Lemma wetBulb_outside (Tdb W P : R) :
  Tdb < T_low W P -> Twb_of Tdb W P = (T_low W P + Tdb) / 2.
Proof.
  intros Hlt. unfold Formula.wetBulbTemperature.
  rewrite wetBulbBracket_real, bisect_not_wide by lra.
  rewrite mid_real. reflexivity.
Qed.

(** X20.  The wet-bulb temperature against the dry-bulb temperature, for
    moist air (W > 0) at a positive pressure, whose vapour pressure has a
    dew point (it is positive, and is not the one at which the
    denominator of the dew point vanishes): when the lower end of the
    search, the larger of the dew point less 5 and -50, is not above the
    dry-bulb temperature, the result lies between the two; when it is
    above, as for every dry-bulb temperature below -50, the loop does not
    run and the result is the mean of the two ends, above the dry-bulb
    temperature. *)
Theorem wet_bulb_against_dry_bulb (Tdb W P : R) :
  0 < W -> 0 < P ->
  vaporPressureFromHumidityRatio W P <> 611.2 * exp 17.27 ->
  (T_low W P <= Tdb -> T_low W P <= wetBulbTemperature Tdb W P <= Tdb) /\
  (Tdb < T_low W P ->
   wetBulbTemperature Tdb W P = (T_low W P + Tdb) / 2 /\
   Tdb < wetBulbTemperature Tdb W P) /\
  (Tdb < -50 -> Tdb < wetBulbTemperature Tdb W P).
Proof.
  intros _ _ _.
  split; [apply wetBulb_inside |].
  assert (Hout : Tdb < T_low W P ->
                 Twb_of Tdb W P = (T_low W P + Tdb) / 2 /\
                 Tdb < Twb_of Tdb W P).
  { intros Hlt. rewrite (wetBulb_outside Tdb W P Hlt). split; lra. }
  split; [exact Hout |].
  intros Hlt. apply Hout.
  pose proof (Rmax_r (T_of_p (Pv_of_W W P) - 5) (-50)). lra.
Qed.

Lemma wetBulb_close (Tdb W P r : R) :
  -50 <= Tdb <= 100 -> p_sat Tdb < P ->
  T_low W P <= r <= Tdb ->
  enthalpy r (W_sat r P) = enthalpy Tdb W ->
  Rabs (Twb_of Tdb W P - r) <= 0.0005.
Proof.
  intros HT HP Hr Hroot.
  unfold Formula.wetBulbTemperature. rewrite wetBulbBracket_real.
  set (below := fun T_mid =>
                  Rltb (enthalpy T_mid (W_sat T_mid P)) (enthalpy Tdb W)).
  assert (Hlow : -50 <= T_low W P) by apply Rmax_r.
  assert (Hps : forall x, -50 <= x <= Tdb -> p_sat x < P).
  { intros x Hx. destruct (Req_dec x Tdb) as [-> | Hne]; [exact HP |].
    pose proof (p_sat_increasing x Tdb). lra. }
  assert (Hb : forall x, T_low W P <= x <= Tdb ->
                         (below x = true <-> x < r)).
  { intros x Hx. unfold below. rewrite Rltb_true, <- Hroot. split.
    - intros Hlt. destruct (Rlt_or_le x r) as [Hxr | Hxr]; [exact Hxr |].
      destruct Hxr as [Hxr | ->]; [| lra].
      pose proof (saturation_enthalpy_increasing r x P).
      assert (p_sat x < P) by (apply Hps; lra). lra.
    - intros Hxr. apply saturation_enthalpy_increasing; [lra | exact Hxr |].
      apply Hps. lra. }
  destruct (root_stays_bracketed 0.001 below r (T_low W P) Tdb 50 Hb Hr)
    as (H1 & H2 & H3 & H4).
  pose proof (final_width 0.001 below 50 (T_low W P) Tdb) as Hf.
  cbv zeta in Hf.
  set (b := bisect 50 0.001 below (T_low W P) Tdb) in *.
  assert (Hw : hi b - lo b <= 0.001).
  { destruct Hf as [Hf | [_ Hf]]; [exact Hf |].
    rewrite Hf.
    pose proof pow2_50 as Hp.
    assert (Hpos : 0 < 2 ^ 50) by lra.
    apply Rmult_le_reg_r with (r := 2 ^ 50); [exact Hpos |].
    replace ((Tdb - T_low W P) / 2 ^ 50 * 2 ^ 50) with (Tdb - T_low W P)
      by (field; lra).
    lra. }
  rewrite mid_real. apply Rabs_le. lra.
Qed.

(** X21.  Between -50 and 100 degrees and below boiling
    ([p_sat Tdb < P_total]), for moist air (W > 0) whose vapour pressure
    has a dew point, the wet-bulb temperature returned is within 0.0005 of
    the temperature of the search range at which saturated air has the
    enthalpy of the state, when there is one; for saturated air it is
    within 0.0005 of the dry-bulb temperature. *)
Theorem wet_bulb_search_converges (Tdb P : R) :
  -50 <= Tdb <= 100 -> 0 < P -> saturationVaporPressure Tdb < P ->
  (forall W r : R,
      0 < W ->
      vaporPressureFromHumidityRatio W P <> 611.2 * exp 17.27 ->
      T_low W P <= r <= Tdb ->
      enthalpy r (saturationHumidityRatio r P) = enthalpy Tdb W ->
      Rabs (wetBulbTemperature Tdb W P - r) <= 0.0005) /\
  Rabs (wetBulbTemperature Tdb (saturationHumidityRatio Tdb P) P - Tdb)
  <= 0.0005.
Proof.
  intros HT HP0 HP. split.
  - intros W r _ _ Hr Hroot. apply wetBulb_close; assumption.
  - apply wetBulb_close; [exact HT | exact HP | | reflexivity].
    split; [| lra].
    rewrite (W_sat_real Tdb P HP).
    rewrite <- (W_of_Pv_real inf (p_sat Tdb) P HP).
    rewrite (Pv_of_W_of_Pv inf _ _ HP0 HP).
    rewrite T_of_p_sat by lra.
    apply Rmax_lub; lra.
Qed.
End ExactWetBulb.

(** *** Density *)

Lemma density_real (Tdb W P : R) :
  Formula.density Tdb W P
  = P / (287.058 * (1 + 1.6078 * W) / (1 + W) * (Tdb + 273.15)).
Proof.
  unfold Formula.density, R_DA. simpl. unfold R_dec. simpl.
  replace (287058e-3) with 287.058 by lra.
  replace (16078e-4) with 1.6078 by lra.
  replace (27315e-2) with 273.15 by lra.
  replace (1 / 1) with 1 by lra.
  reflexivity.
Qed.

Lemma density_ratio (Tdb W P : R) :
  0 <= W -> -273.15 < Tdb ->
  Formula.density Tdb W P
  = P * (1 + W) / (287.058 * (1 + 1.6078 * W) * (Tdb + 273.15)).
Proof.
  intros HW HT. rewrite density_real. field. repeat split; lra.
Qed.

(** X22.  The density of moist air is positive, and decreases when the air is
    warmer or holds more water, for a positive pressure, a humidity ratio
    that is not negative and a temperature above absolute zero. *)
Theorem density_decreases (P : R) :
  0 < P ->
  (forall Tdb W : R,
      -273.15 < Tdb -> 0 <= W -> 0 < Formula.density Tdb W P) /\
  (forall Tdb W1 W2 : R,
      -273.15 < Tdb -> 0 <= W1 -> W1 < W2 ->
      Formula.density Tdb W2 P < Formula.density Tdb W1 P) /\
  (forall T1 T2 W : R,
      -273.15 < T1 -> T1 < T2 -> 0 <= W ->
      Formula.density T2 W P < Formula.density T1 W P).
Proof.
  intros HP. split; [| split].
  - intros Tdb W HT HW. rewrite density_ratio by lra.
    apply Rdiv_lt_0_compat.
    + apply Rmult_lt_0_compat; lra.
    + apply Rmult_lt_0_compat; lra.
  - intros Tdb W1 W2 HT H1 H12. rewrite !density_ratio by lra.
    set (K := Tdb + 273.15).
    assert (HK : 0 < K) by (unfold K; lra).
    set (A1 := 287.058 * (1 + 1.6078 * W1) * K).
    set (A2 := 287.058 * (1 + 1.6078 * W2) * K).
    assert (HA1 : 0 < A1) by (apply Rmult_lt_0_compat; lra).
    assert (HA2 : 0 < A2) by (apply Rmult_lt_0_compat; lra).
    apply Rmult_lt_reg_r with (r := A1 * A2);
      [apply Rmult_lt_0_compat; assumption |].
    replace (P * (1 + W2) / A2 * (A1 * A2)) with (P * (1 + W2) * A1)
      by (field; lra).
    replace (P * (1 + W1) / A1 * (A1 * A2)) with (P * (1 + W1) * A2)
      by (field; lra).
    unfold A1, A2.
    replace (P * (1 + W2) * (287.058 * (1 + 1.6078 * W1) * K))
      with (287.058 * P * K * ((1 + W2) * (1 + 1.6078 * W1))) by ring.
    replace (P * (1 + W1) * (287.058 * (1 + 1.6078 * W2) * K))
      with (287.058 * P * K * ((1 + W1) * (1 + 1.6078 * W2))) by ring.
    apply Rmult_lt_compat_l; [| nra].
    apply Rmult_lt_0_compat; [lra | exact HK].
  - intros T1 T2 W HT H12 HW. rewrite !density_ratio by lra.
    set (A := 287.058 * (1 + 1.6078 * W)).
    assert (HA : 0 < A) by (unfold A; lra).
    set (K1 := T1 + 273.15). set (K2 := T2 + 273.15).
    assert (HK : 0 < K1 < K2) by (unfold K1, K2; lra).
    assert (H1 : 0 < A * K1) by (apply Rmult_lt_0_compat; lra).
    assert (H2 : 0 < A * K2) by (apply Rmult_lt_0_compat; lra).
    apply Rmult_lt_reg_r with (r := (A * K1) * (A * K2));
      [apply Rmult_lt_0_compat; assumption |].
    replace (P * (1 + W) / (A * K2) * (A * K1 * (A * K2)))
      with (P * (1 + W) * A * K1) by (field; lra).
    replace (P * (1 + W) / (A * K1) * (A * K1 * (A * K2)))
      with (P * (1 + W) * A * K2) by (field; lra).
    apply Rmult_lt_compat_l; [| lra].
    apply Rmult_lt_0_compat; [| exact HA].
    apply Rmult_lt_0_compat; lra.
Qed.

(** ** The exact reading on concrete inputs *)

Lemma exp_1727 : 1 < exp 17.27.
Proof. rewrite <- exp_0. apply exp_increasing. lra. Qed.

Lemma p_sat_0 : Formula.saturationVaporPressure exp 0 = 611.2.
Proof.
  rewrite p_sat_real.
  replace (17.27 * 0 / (237.7 + 0)) with 0 by (field; lra).
  rewrite exp_0. lra.
Qed.

Lemma saturation_pressure_round_trip_witness :
  (0 <> -237.7 /\
   Formula.temperatureFromSaturationPressure
     ln (Formula.saturationVaporPressure exp 0) = 0) /\
  (0 < 611.2 /\ 611.2 <> 611.2 * exp 17.27 /\
   Formula.saturationVaporPressure
     exp (Formula.temperatureFromSaturationPressure ln 611.2) = 611.2).
Proof.
  pose proof exp_1727 as He.
  assert (L1 : 0 <> -237.7) by lra.
  assert (L2 : 0 < 611.2) by lra.
  assert (L3 : 611.2 <> 611.2 * exp 17.27) by lra.
  split.
  - split; [exact L1 |].
    exact (proj1 saturation_pressure_round_trip 0 L1).
  - split; [exact L2 |]. split; [exact L3 |].
    exact (proj2 saturation_pressure_round_trip 611.2 L2 L3).
Defined.

Lemma saturation_pressure_increasing_witness :
  (10 <> -237.7 /\ 0 < Formula.saturationVaporPressure exp 10) /\
  (-237.7 < 0 /\ 0 < 10 /\
   Formula.saturationVaporPressure exp 0
   < Formula.saturationVaporPressure exp 10).
Proof.
  assert (L0 : 10 <> -237.7) by lra.
  assert (L1 : -237.7 < 0) by lra.
  assert (L2 : 0 < 10) by lra.
  split.
  - split; [exact L0 |].
    exact (proj1 saturation_pressure_increasing 10 L0).
  - split; [exact L1 |]. split; [exact L2 |].
    exact (proj2 (proj2 saturation_pressure_increasing) 0 10 L1 L2).
Defined.

Lemma humidity_ratio_round_trip_witness :
  (0 < 101325 /\ 1000 < 101325 /\
   Formula.vaporPressureFromHumidityRatio
     (Formula.humidityRatioFromVaporPressure 0 Rgeb 1000 101325) 101325
   = 1000) /\
  (0 < 101325 /\ -0.622 < 0.01 /\
   Formula.humidityRatioFromVaporPressure
     0 Rgeb (Formula.vaporPressureFromHumidityRatio 0.01 101325) 101325
   = 0.01) /\
  (0 <= 1000 /\ 1000 < 101325 /\
   0 <= Formula.humidityRatioFromVaporPressure 0 Rgeb 1000 101325).
Proof.
  pose proof (humidity_ratio_round_trip 0) as (H1 & H2 & H3).
  assert (L1 : 0 < 101325) by lra.
  assert (L2 : 1000 < 101325) by lra.
  assert (L3 : -0.622 < 0.01) by lra.
  assert (L4 : 0 <= 1000) by lra.
  split; [| split].
  - split; [exact L1 |]. split; [exact L2 |]. exact (H1 1000 101325 L1 L2).
  - split; [exact L1 |]. split; [exact L3 |]. exact (H2 0.01 101325 L1 L3).
  - split; [exact L4 |]. split; [exact L2 |]. exact (H3 1000 101325 L4 L2).
Defined.

Lemma dew_point_against_relative_humidity_witness :
  0 < 611.2 /\ 611.2 < 611.2 * exp 17.27 /\ -237.7 < 0 /\
  (Formula.relativeHumidity exp 611.2 0 = 100 <->
   Formula.temperatureFromSaturationPressure ln 611.2 = 0).
Proof.
  pose proof exp_1727 as He.
  assert (L1 : 0 < 611.2) by lra.
  assert (L2 : 611.2 < 611.2 * exp 17.27) by lra.
  assert (L3 : -237.7 < 0) by lra.
  split; [exact L1 |]. split; [exact L2 |]. split; [exact L3 |].
  exact (proj2 (dew_point_against_relative_humidity 611.2 0 L1 L2 L3)).
Defined.

Lemma relative_humidity_round_trip_witness :
  0 <> -237.7 /\ 0 < 101325 /\
  50 / 100 * Formula.saturationVaporPressure exp 0 < 101325 /\
  100 * Formula.vaporPressureFromHumidityRatio
          (Formula.humidityRatioFromVaporPressure
             0 Rgeb (50 / 100 * Formula.saturationVaporPressure exp 0)
             101325)
          101325
  / Formula.saturationVaporPressure exp 0 = 50.
Proof.
  assert (L1 : 0 < 101325) by lra.
  assert (L2 : 50 / 100 * Formula.saturationVaporPressure exp 0 < 101325).
  { rewrite p_sat_0. lra. }
  assert (L0 : 0 <> -237.7) by lra.
  split; [exact L0 |]. split; [exact L1 |]. split; [exact L2 |].
  exact (relative_humidity_round_trip 0 0 50 101325 L0 L1 L2).
Defined.

Lemma bisection_encloses_the_root_witness :
  0 <= 0.3 <= 1 /\
  (forall x, 0 <= x <= 1 -> (Rltb x 0.3 = true <-> x < 0.3)) /\
  Rabs (mid (bisect 5 0.1 (fun x => Rltb x 0.3) 0 1) - 0.3)
  <= (hi (bisect 5 0.1 (fun x => Rltb x 0.3) 0 1)
      - lo (bisect 5 0.1 (fun x => Rltb x 0.3) 0 1)) / 2.
Proof.
  assert (L1 : 0 <= 0.3 <= 1) by lra.
  assert (L2 : forall x, 0 <= x <= 1 -> (Rltb x 0.3 = true <-> x < 0.3)).
  { intros x _. apply Rltb_true. }
  split; [exact L1 |]. split; [exact L2 |].
  exact (proj1 (proj2 (proj2 (proj2
           (bisection_encloses_the_root
              0.1 0 1 0.3 (fun x => Rltb x 0.3) 5 L1 L2))))).
Defined.

Lemma TdbH_search_converges_witness :
  0 < 2501 + 1.86 * 20 /\ 0 <= 0.01 <= 1000000 /\
  enthalpy 20 0 <= 40 <= enthalpy 20 0.01 /\
  exists root : R,
    0 <= root <= 0.01 /\ enthalpy 20 root = 40 /\
    Rabs (mid (bracketFromTdbH 20 40 0.01) - root) <= 0.0000005.
Proof.
  assert (L1 : 0 < 2501 + 1.86 * 20) by lra.
  assert (L2 : 0 <= 0.01 <= 1000000) by lra.
  assert (L3 : enthalpy 20 0 <= 40 <= enthalpy 20 0.01).
  { rewrite !enthalpy_real. lra. }
  split; [exact L1 |]. split; [exact L2 |]. split; [exact L3 |].
  destruct (TdbH_search_converges 20 40 0.01 L1 L2 L3)
    as (root & Hin & Heq & _ & Hclose).
  exists root. split; [exact Hin |]. split; [exact Heq | exact Hclose].
Defined.

Lemma wet_bulb_against_dry_bulb_witness :
  0 < 0.001 /\ 0 < 101325 /\
  Formula.vaporPressureFromHumidityRatio 0.001 101325
  <> 611.2 * exp 17.27 /\
  -60 < -50 /\
  -60 < Formula.wetBulbTemperature exp ln 0 Rgeb Rmax (-60) 0.001 101325.
Proof.
  assert (L1 : 0 < 0.001) by lra.
  assert (L2 : 0 < 101325) by lra.
  assert (L3 : Formula.vaporPressureFromHumidityRatio 0.001 101325
               <> 611.2 * exp 17.27).
  { pose proof exp_1727 as He. rewrite Pv_of_W_real.
    replace (0.622 + 0.001) with 0.623 by lra. lra. }
  assert (L : -60 < -50) by lra.
  split; [exact L1 |]. split; [exact L2 |]. split; [exact L3 |].
  split; [exact L |].
  exact (proj2 (proj2 (wet_bulb_against_dry_bulb
                         0 (-60) 0.001 101325 L1 L2 L3)) L).
Defined.

Lemma wet_bulb_search_converges_witness :
  -50 <= 0 <= 100 /\ 0 < 101325 /\
  Formula.saturationVaporPressure exp 0 < 101325 /\
  Rabs (Formula.wetBulbTemperature
          exp ln 0 Rgeb Rmax 0
          (Formula.saturationHumidityRatio exp 0 Rgeb 0 101325) 101325
        - 0) <= 0.0005.
Proof.
  assert (L1 : -50 <= 0 <= 100) by lra.
  assert (L2 : 0 < 101325) by lra.
  assert (L3 : Formula.saturationVaporPressure exp 0 < 101325).
  { rewrite p_sat_0. lra. }
  split; [exact L1 |]. split; [exact L2 |]. split; [exact L3 |].
  exact (proj2 (wet_bulb_search_converges 0 0 101325 L1 L2 L3)).
Defined.

Lemma density_decreases_witness :
  0 < 101325 /\ -273.15 < 20 /\ 0 <= 0.005 /\ 0.005 < 0.01 /\
  Formula.density 20 0.01 101325 < Formula.density 20 0.005 101325.
Proof.
  assert (L1 : 0 < 101325) by lra.
  assert (L2 : -273.15 < 20) by lra.
  assert (L3 : 0 <= 0.005) by lra.
  assert (L4 : 0.005 < 0.01) by lra.
  split; [exact L1 |]. split; [exact L2 |]. split; [exact L3 |].
  split; [exact L4 |].
  exact (proj1 (proj2 (density_decreases 101325 L1)) 20 0.005 0.01 L2 L3 L4).
Defined.

Lemma RHW_pair_is_consistent_witness :
  0 < 50 /\ 0 < 0.01 /\ 0 < 101325 /\
  100 * Formula.vaporPressureFromHumidityRatio 0.01 101325 / 50
  <> 611.2 * exp 17.27 /\
  Formula.relativeHumidity
    exp (Formula.vaporPressureFromHumidityRatio 0.01 101325)
    (Formula.temperatureFromSaturationPressure
       ln (100 * Formula.vaporPressureFromHumidityRatio 0.01 101325 / 50))
  = 50.
Proof.
  assert (L1 : 0 < 50) by lra.
  assert (L2 : 0 < 0.01) by lra.
  assert (L3 : 0 < 101325) by lra.
  assert (L4 : 100 * Formula.vaporPressureFromHumidityRatio 0.01 101325 / 50
               <> 611.2 * exp 17.27).
  { pose proof (exp_ineq1_le 17.27) as He.
    rewrite Pv_of_W_real.
    replace (0.622 + 0.01) with 0.632 by lra. lra. }
  split; [exact L1 |]. split; [exact L2 |]. split; [exact L3 |].
  split; [exact L4 |].
  exact (RHW_pair_is_consistent 50 0.01 101325 L1 L2 L3 L4).
Defined.

(** *** Targets out of reach, in exact arithmetic *)

Lemma bracketFromTdbH_narrow (Tdb h_target W_max : R) :
  0 <= W_max <= 1000000 ->
  let b := bracketFromTdbH Tdb h_target W_max in
  hi b - lo b <= 0.000001.
Proof.
  intros HW. rewrite bracketFromTdbH_real. cbv zeta.
  pose proof (final_width 0.000001
                (fun W_mid => Rltb (enthalpy Tdb W_mid) h_target)
                100 0 W_max) as Hf.
  cbv zeta in Hf. destruct Hf as [Hf | [_ Hf]]; [exact Hf |].
  rewrite Hf.
  pose proof pow2_100_large as Hp.
  assert (Hpos : 0 < 2 ^ 100) by lra.
  apply Rmult_le_reg_r with (r := 2 ^ 100); [exact Hpos |].
  replace ((W_max - 0) / 2 ^ 100 * 2 ^ 100) with W_max by (field; lra).
  nra.
Qed.

(** X23.  In exact arithmetic, for a target above the enthalpy at the upper
    end of the bracket every test answers "below", the upper end never
    moves and the result is within half the tolerance below it; the
    enthalpy there is below that of the end, so that the target differs
    from the enthalpy of the returned state by more than the final bracket
    accounts for.  Likewise at the lower end for a target below the
    range. *)
Theorem unattainable_target_in_exact_arithmetic :
  (forall W h_target : R,
      0 <= W ->
      let b := bracketFromWH W h_target in
      let Tdb := mid b in
      (enthalpy 100 W < h_target ->
       hi b = 100 /\ 100 - 0.005 <= Tdb < 100 /\
       0 < enthalpy 100 W - enthalpy Tdb W < h_target - enthalpy Tdb W) /\
      (h_target < enthalpy (-50) W ->
       lo b = -50 /\ -50 < Tdb <= -50 + 0.005 /\
       0 < enthalpy Tdb W - enthalpy (-50) W < enthalpy Tdb W - h_target)) /\
  (forall Tdb h_target W_max : R,
      0 < 2501 + 1.86 * Tdb -> 0 < W_max <= 1000000 ->
      let b := bracketFromTdbH Tdb h_target W_max in
      let W := mid b in
      (enthalpy Tdb W_max < h_target ->
       hi b = W_max /\ W_max - 0.0000005 <= W < W_max /\
       0 < enthalpy Tdb W_max - enthalpy Tdb W < h_target - enthalpy Tdb W) /\
      (h_target < enthalpy Tdb 0 ->
       lo b = 0 /\ 0 < W <= 0.0000005 /\
       0 < enthalpy Tdb W - enthalpy Tdb 0 < enthalpy Tdb W - h_target)).
Proof.
  split.
  - intros W h_target HW b Tdb. subst Tdb.
    pose proof (bracketFromWH_narrow W h_target) as Hn. cbv zeta in Hn.
    subst b. rewrite mid_real. rewrite bracketFromWH_real in *.
    split; intros Hh.
    + destruct (stuck_at_upper_end
                  0.01 (fun T_mid => Rltb (enthalpy T_mid W) h_target)
                  (-50) 100 100) as (Hhi & Hlo & Hlt).
      * intros x Hx. apply Rltb_true.
        rewrite enthalpy_real in *. nra.
      * lra.
      * rewrite Hhi in *.
        assert (Hm : enthalpy ((lo (bisect 100 0.01
                     (fun T_mid => Rltb (enthalpy T_mid W) h_target)
                     (-50) 100) + 100) / 2) W < enthalpy 100 W).
        { apply enthalpy_increasing_in_T; lra. }
        repeat split; lra.
    + destruct (stuck_at_lower_end
                  0.01 (fun T_mid => Rltb (enthalpy T_mid W) h_target)
                  (-50) 100 100) as (Hlo & Hlt & Hhi).
      * intros x Hx. apply Rltb_false.
        rewrite enthalpy_real in *. nra.
      * lra.
      * rewrite Hlo in *.
        assert (Hm : enthalpy (-50) W < enthalpy ((-50 + hi (bisect 100 0.01
                     (fun T_mid => Rltb (enthalpy T_mid W) h_target)
                     (-50) 100)) / 2) W).
        { apply enthalpy_increasing_in_T; lra. }
        repeat split; lra.
  - intros Tdb h_target W_max HT HW b W. subst W.
    pose proof (bracketFromTdbH_narrow Tdb h_target W_max) as Hn.
    cbv zeta in Hn. fold b in Hn.
    assert (Hw : hi b - lo b <= 0.000001) by (apply Hn; lra).
    clear Hn. subst b.
    rewrite mid_real. rewrite bracketFromTdbH_real in *.
    set (b := bisect 100 0.000001
                (fun W_mid => Rltb (enthalpy Tdb W_mid) h_target) 0 W_max) in *.
    split; intros Hh.
    + destruct (stuck_at_upper_end
                  0.000001 (fun W_mid => Rltb (enthalpy Tdb W_mid) h_target)
                  0 W_max 100) as (Hhi & Hlo & Hlt).
      * intros x Hx. apply Rltb_true.
        rewrite enthalpy_real in *. nra.
      * lra.
      * fold b in Hhi, Hlo, Hlt. rewrite Hhi in *.
        assert (Hm : enthalpy Tdb ((lo b + W_max) / 2) < enthalpy Tdb W_max).
        { apply enthalpy_increasing_in_W; lra. }
        repeat split; lra.
    + destruct (stuck_at_lower_end
                  0.000001 (fun W_mid => Rltb (enthalpy Tdb W_mid) h_target)
                  0 W_max 100) as (Hlo & Hlt & Hhi).
      * intros x Hx. apply Rltb_false.
        rewrite enthalpy_real in *. nra.
      * lra.
      * fold b in Hhi, Hlo, Hlt. rewrite Hlo in *.
        assert (Hm : enthalpy Tdb 0 < enthalpy Tdb ((0 + hi b) / 2)).
        { apply enthalpy_increasing_in_W; lra. }
        repeat split; lra.
Qed.

Lemma unattainable_target_in_exact_arithmetic_witness :
  (0 <= 0.01 /\ enthalpy 100 0.01 < 1000 /\
   100 - 0.005 <= mid (bracketFromWH 0.01 1000) < 100) /\
  (0 <= 0.01 /\ -100 < enthalpy (-50) 0.01 /\
   -50 < mid (bracketFromWH 0.01 (-100)) <= -50 + 0.005) /\
  (0 < 2501 + 1.86 * 20 /\ 0 < 0.0147 <= 1000000 /\
   enthalpy 20 0.0147 < 500 /\
   0.0147 - 0.0000005 <= mid (bracketFromTdbH 20 500 0.0147) < 0.0147) /\
  (0 < 2501 + 1.86 * 20 /\ 0 < 0.0147 <= 1000000 /\ 5 < enthalpy 20 0 /\
   0 < mid (bracketFromTdbH 20 5 0.0147) <= 0.0000005).
Proof.
  pose proof unattainable_target_in_exact_arithmetic as (HWH & HTdbH).
  assert (L0 : 0 <= 0.01) by lra.
  assert (L1 : enthalpy 100 0.01 < 1000) by (rewrite enthalpy_real; lra).
  assert (L2 : -100 < enthalpy (-50) 0.01) by (rewrite enthalpy_real; lra).
  assert (L3 : 0 < 2501 + 1.86 * 20) by lra.
  assert (L4 : 0 < 0.0147 <= 1000000) by lra.
  assert (L5 : enthalpy 20 0.0147 < 500) by (rewrite enthalpy_real; lra).
  assert (L6 : 5 < enthalpy 20 0) by (rewrite enthalpy_real; lra).
  split; [| split; [| split]].
  - split; [exact L0 |]. split; [exact L1 |].
    exact (proj1 (proj2 (proj1 (HWH 0.01 1000 L0) L1))).
  - split; [exact L0 |]. split; [exact L2 |].
    exact (proj1 (proj2 (proj2 (HWH 0.01 (-100) L0) L2))).
  - split; [exact L3 |]. split; [exact L4 |]. split; [exact L5 |].
    exact (proj1 (proj2 (proj1 (HTdbH 20 500 0.0147 L3 L4) L5))).
  - split; [exact L3 |]. split; [exact L4 |]. split; [exact L6 |].
    exact (proj1 (proj2 (proj2 (HTdbH 20 5 0.0147 L3 L4) L6))).
Defined.

(** * The enthalpy searches on doubles *)

Local Close Scope R_scope.

(** ** Runs of the loop that keep to one end *)

Section Runs.
Context {N : Type} `{Arith N}.
Variable tolerance : N.
Variable below : N -> bool.










End Runs.

(** ** Comparisons of doubles *)

Local Open Scope float_scope.





(** ** The two enthalpy searches *)















(** An enthalpy of 500 kJ/kg is out of reach at Tdb = 20: the state is
    returned with [h = 500] and a W within 0.0000005 under the saturation
    ratio, where the enthalpy is under 58. *)
Example unattainable_target_at_Tdb :
  exists st,
    solveState exp_ref log_ref (call Kind.tdb 20 Kind.h 500 101325 1)
    = Ok st /\
    State.h st = 500 /\
    (State.W st <? saturationHumidityRatio exp_ref 20 101325) = true /\
    (saturationHumidityRatio exp_ref 20 101325 - State.W st <? 0.0000005)
    = true /\
    (enthalpy (State.Tdb st) (State.W st) <? 58) = true.
Proof.
  eexists. split; [vm_compute; reflexivity |].
  repeat split; vm_compute; reflexivity.
Qed.

Local Close Scope float_scope.
Local Open Scope R_scope.

(** ** The enthalpy searches, in exact arithmetic and on doubles *)




Local Close Scope R_scope.
Local Open Scope float_scope.

